(** * SideFX Labs VAT player: decode model, instance layout, metadata parser

    A shallow embedding of [src/sidefx-player.ts].

    Numbers.  JavaScript numbers and GLSL floats are modelled by [num]: a
    finite value is an exact rational, and the three special values of IEEE
    arithmetic (both infinities and NaN) are kept, because the source divides
    by quantities that can be zero.  Finite arithmetic is exact (no rounding,
    no overflow) and the two zeros are identified; every operation returns
    its finite result in lowest terms, so that concrete results can be
    compared with [=], while general statements use [num_eq].

    Strings.  A JavaScript string is a list of UTF-16 code units. *)

From Stdlib Require Import ZArith QArith Qround Lia Lqa List Bool String Ascii.
From Stdlib Require Qcanon.
From stdpp Require Import base list gmap.
Import ListNotations.

Local Open Scope Q_scope.

(* ------------------------------------------------------------------ *)
(** ** Numbers *)

Inductive num : Type :=
| Fin (q : Q)
| PInf
| NInf
| NaN.

(** Same value: [Qeq] on finite values, NaN equal to itself. *)
Definition num_eq (a b : num) : Prop :=
  match a, b with
  | Fin x, Fin y => x == y
  | PInf, PInf | NInf, NInf | NaN, NaN => True
  | _, _ => False
  end.


Definition signed_inf (c : comparison) : num :=
  match c with Gt => PInf | Lt => NInf | Eq => NaN end.

Definition fin (q : Q) : num := Fin (Qred q).
Definition of_Z (z : Z) : num := Fin (inject_Z z).

Definition js_neg (a : num) : num :=
  match a with
  | Fin x => fin (- x)
  | PInf => NInf
  | NInf => PInf
  | NaN => NaN
  end.

Definition js_add (a b : num) : num :=
  match a, b with
  | NaN, _ | _, NaN => NaN
  | Fin x, Fin y => fin (x + y)
  | PInf, NInf | NInf, PInf => NaN
  | PInf, _ | _, PInf => PInf
  | NInf, _ | _, NInf => NInf
  end.

Definition js_sub (a b : num) : num := js_add a (js_neg b).

Definition js_mul (a b : num) : num :=
  match a, b with
  | NaN, _ | _, NaN => NaN
  | Fin x, Fin y => fin (x * y)
  | Fin x, PInf | PInf, Fin x => signed_inf (x ?= 0)
  | Fin x, NInf | NInf, Fin x => signed_inf (CompOpp (x ?= 0))
  | PInf, PInf | NInf, NInf => PInf
  | PInf, NInf | NInf, PInf => NInf
  end.

(** Division: a finite value over zero is an infinity of the sign of the
    numerator, and zero over zero is NaN. *)
Definition js_div (a b : num) : num :=
  match a, b with
  | NaN, _ | _, NaN => NaN
  | Fin x, Fin y => if Qeq_bool y 0 then signed_inf (x ?= 0) else fin (x / y)
  | Fin _, _ => Fin 0
  | PInf, Fin y => match y ?= 0 with Lt => NInf | _ => PInf end
  | NInf, Fin y => match y ?= 0 with Lt => PInf | _ => NInf end
  | _, _ => NaN
  end.

Definition js_floor (a : num) : num :=
  match a with Fin x => of_Z (Qfloor x) | _ => a end.

(** [a < b]; false as soon as one side is NaN. *)
Definition js_lt (a b : num) : bool :=
  match a, b with
  | NaN, _ | _, NaN => false
  | Fin x, Fin y => match x ?= y with Lt => true | _ => false end
  | NInf, NInf | PInf, _ => false
  | NInf, _ => true
  | Fin _, PInf => true
  | Fin _, NInf => false
  end.

Definition js_gt (a b : num) : bool := js_lt b a.

(** Truthiness of a number: everything but zero and NaN. *)
Definition truthy (a : num) : bool :=
  match a with
  | Fin x => negb (Qeq_bool x 0)
  | NaN => false
  | _ => true
  end.

(** [a || d] on numbers. *)
Definition js_or (a d : num) : num := if truthy a then a else d.

(** [Math.max] and [Math.min] of two numbers. *)
Definition js_max (a b : num) : num :=
  match a, b with
  | NaN, _ | _, NaN => NaN
  | _, _ => if js_lt a b then b else a
  end.

Definition js_min (a b : num) : num :=
  match a, b with
  | NaN, _ | _, NaN => NaN
  | _, _ => if js_lt b a then b else a
  end.

(** [Math.round]: the nearest integer, a tie going up. *)
Definition js_round (a : num) : num :=
  match a with Fin x => of_Z (Qfloor (x + (1 # 2))) | _ => a end.

(** [a % b]: the remainder of the division truncated towards zero. *)
Definition Qtrunc (x : Q) : Z :=
  match (x ?= 0)%Q with Lt => Qceiling x | _ => Qfloor x end.

Definition js_rem (a b : num) : num :=
  match a, b with
  | Fin x, Fin y =>
      if Qeq_bool y 0 then NaN else fin (x - y * inject_Z (Qtrunc (x / y)))
  | Fin x, (PInf | NInf) => a
  | _, _ => NaN
  end.

(** [Math.ceil (Math.sqrt a)] as one exact operation: the least integer whose
    square is at least [a]. *)
Definition ceil_sqrt (x : Q) : Z :=
  let n := Qceiling x in
  let r := Z.sqrt n in
  if (r * r =? n)%Z then r else (r + 1)%Z.

Definition js_ceil_sqrt (a : num) : num :=
  match a with
  | Fin x => match x ?= 0 with Lt => NaN | _ => of_Z (ceil_sqrt x) end
  | PInf => PInf
  | _ => NaN
  end.

(* ------------------------------------------------------------------ *)
(** ** The vertex shader [VAT_VERTEX_SHADER] *)

Module Shader.

Definition vec2 : Type := (num * num)%type.
Definition vec3 : Type := (num * num * num)%type.

Definition vmap2 (f : num -> num -> num) (a b : vec3) : vec3 :=
  let '(ax, ay, az) := a in
  let '(bx, by_, bz) := b in
  (f ax bx, f ay by_, f az bz).

Definition vadd := vmap2 js_add.
Definition vsub := vmap2 js_sub.
Definition vmul := vmap2 js_mul.

(** GLSL [mod (x, y) = x - y * floor (x / y)]. *)
Definition glsl_mod (x y : num) : num :=
  js_sub x (js_mul y (js_floor (js_div x y))).

Record Uniforms : Type := mkUniforms {
  u_vatTime : num;
  u_numFrames : num;
  u_fps : num;
  u_posMin : vec3;
  u_posMax : vec3;
  u_isPacked : num;
  u_flipV : num;
  u_useOffset : num
}.

(** [float frame = floor(mod(effectiveTime * fps, numFrames));] *)
Definition frame (effectiveTime fps numFrames : num) : num :=
  js_floor (glsl_mod (js_mul effectiveTime fps) numFrames).

(** The position decoded from the texel [posSample.xyz]. *)
Definition texPos (isPacked : num) (posMin posMax sample : vec3) : vec3 :=
  if js_gt isPacked (Fin (1 # 2))
  then vadd posMin (vmul (vsub posMax posMin) sample)
  else sample.

(** [main], up to the animated position.  [instanceTimeOffset] is the
    per-instance attribute when the shader is compiled with INSTANCES;
    [positionTexture] is the sampler. *)
Definition effectiveTime (u : Uniforms) (instanceTimeOffset : option num) : num :=
  match instanceTimeOffset with
  | Some off => js_add (u_vatTime u) off
  | None => u_vatTime u
  end.

Definition posUV (u : Uniforms) (instanceTimeOffset : option num) (uv2 : vec2) : vec2 :=
  let fr := frame (effectiveTime u instanceTimeOffset) (u_fps u) (u_numFrames u) in
  let frameOffset := js_div fr (u_numFrames u) in
  let finalU := fst uv2 in
  let finalV := js_add (snd uv2) frameOffset in
  let finalV := if js_gt (u_flipV u) (Fin (1 # 2)) then js_sub (Fin 1) finalV else finalV in
  (finalU, finalV).

Definition animPos (u : Uniforms) (instanceTimeOffset : option num)
    (positionTexture : vec2 -> vec3) (position : vec3) (uv2 : vec2) : vec3 :=
  let posSample := positionTexture (posUV u instanceTimeOffset uv2) in
  let tp := texPos (u_isPacked u) (u_posMin u) (u_posMax u) posSample in
  if js_gt (u_useOffset u) (Fin (1 # 2)) then vadd position tp else tp.

End Shader.

(* ------------------------------------------------------------------ *)
(** ** The instance layout of [applyInstancing] *)

(** Babylon's [Matrix.Translation (x, y, z)]: the sixteen entries of the
    matrix, row by row, the translation in the last row. *)
Definition Translation (x y z : num) : list num :=
  [ Fin 1; Fin 0; Fin 0; Fin 0;
    Fin 0; Fin 1; Fin 0; Fin 0;
    Fin 0; Fin 0; Fin 1; Fin 0;
    x; y; z; Fin 1 ].

(** [new Float32Array (n)]: [n] truncated to an index, filled with zeros. *)
Definition Float32Array (n : num) : list num :=
  match n with
  | Fin q => replicate (Z.to_nat (Qfloor q)) (Fin 0)
  | _ => []
  end.

(** [matrix.copyToArray (array, offset)]: entry [k] goes to [offset + k]; a
    write past the end of a typed array is dropped. *)
Fixpoint copyToArray (m : list num) (array : list num) (offset : nat) : list num :=
  match m with
  | [] => array
  | v :: m' => copyToArray m' (<[offset := v]> array) (S offset)
  end.

Record Layout : Type := mkLayout {
  instanceCount : num;
  gridSize : num;
  spacing : num;
  animDuration : num;
  gridOffset : num;
  matricesData : list num;
  timeOffsets : list num
}.

Section LayoutLoop.

Variables (instanceCount_ gridSize_ spacing_ animDuration_ gridOffset_ : num).

Definition row_of (i : nat) : num := js_floor (js_div (of_Z (Z.of_nat i)) gridSize_).
Definition col_of (i : nat) : num := js_rem (of_Z (Z.of_nat i)) gridSize_.
Definition x_of (i : nat) : num := js_sub (js_mul (col_of i) spacing_) gridOffset_.
Definition z_of (i : nat) : num := js_sub (js_mul (row_of i) spacing_) gridOffset_.

(** [((row + col) / (gridSize * 2 - 2)) * animDuration] *)
Definition timeOffset_of (i : nat) : num :=
  js_mul (js_div (js_add (row_of i) (col_of i))
                 (js_sub (js_mul gridSize_ (Fin 2)) (Fin 2)))
         animDuration_.

(** One turn of the loop body at index [i]. *)
Definition layout_body (i : nat) (bufs : list num * list num) : list num * list num :=
  let '(md, tos) := bufs in
  let matrix := Translation (x_of i) (Fin 0) (z_of i) in
  (copyToArray matrix md (i * 16), <[i := timeOffset_of i]> tos).

(** [for (let i = 0; i < instanceCount; i++) { ... }], from index [i]. *)
Fixpoint layout_loop (fuel : nat) (i : nat) (bufs : list num * list num)
    : option (list num * list num) :=
  if js_lt (of_Z (Z.of_nat i)) instanceCount_ then
    match fuel with
    | O => None
    | S fuel' => layout_loop fuel' (S i) (layout_body i bufs)
    end
  else Some bufs.

End LayoutLoop.

(** The layout computed by [applyInstancing (true)].  [countIn] and
    [spacingIn] are [Number (instanceCountInput.value)] and
    [Number (instanceSpacingInput.value)]; [numFrames] and [fps] are the
    local constants of the same names.  The count is at most 10000, which
    bounds the number of turns of the loop. *)
Definition instanceLayout (countIn spacingIn numFrames fps : num) : option Layout :=
  let instanceCount := js_max (Fin 1) (js_min (Fin 10000) (js_or countIn (Fin 100))) in
  let gridSize := js_ceil_sqrt instanceCount in
  let spacing := js_or spacingIn (Fin 3) in
  let animDuration := js_div numFrames fps in
  let matricesData := Float32Array (js_mul instanceCount (Fin 16)) in
  let timeOffsets := Float32Array instanceCount in
  let gridOffset := js_div (js_mul (js_sub gridSize (Fin 1)) spacing) (Fin 2) in
  match layout_loop instanceCount gridSize spacing animDuration gridOffset
          (Z.to_nat 10000) 0 (matricesData, timeOffsets) with
  | Some (md, tos) =>
      Some (mkLayout instanceCount gridSize spacing animDuration gridOffset md tos)
  | None => None
  end.

(** The sixteen floats of instance [i] in the matrix buffer. *)
Definition instanceMatrix (L : Layout) (i : nat) : list num :=
  take 16 (drop (i * 16) (matricesData L)).

(* ------------------------------------------------------------------ *)
(** ** Strings, [parseFloat] and [Number] *)

Definition jsstring : Type := list N.

Definition str (s : string) : jsstring :=
  map N_of_ascii (list_ascii_of_string s).

(** White space and line terminators: what [\s] matches and what
    [parseFloat] and [Number] trim. *)
Definition is_space (c : N) : bool :=
  ((9 <=? c) && (c <=? 13) || (c =? 32) || (c =? 160) || (c =? 5760)
   || (8192 <=? c) && (c <=? 8202) || (c =? 8232) || (c =? 8233)
   || (c =? 8239) || (c =? 8287) || (c =? 12288) || (c =? 65279))%N.

Definition is_digit (c : N) : bool := ((48 <=? c) && (c <=? 57))%N.

(** Case folding of the [i] flag.  A code unit above 127 never folds to an
    ASCII one, so against the ASCII patterns used here it is enough to fold
    the ASCII letters. *)
Definition canon (c : N) : N :=
  if ((97 <=? c) && (c <=? 122))%N then (c - 32)%N else c.

Definition ci_eq (a b : N) : bool := (canon a =? canon b)%N.

Fixpoint span (f : N -> bool) (s : jsstring) : jsstring * jsstring :=
  match s with
  | c :: s' =>
      if f c then let '(p, r) := span f s' in (c :: p, r) else ([], s)
  | [] => ([], [])
  end.

Definition is_nil {A} (l : list A) : bool :=
  match l with [] => true | _ => false end.

(** The value of a run of digits in base [radix], most significant first. *)
Definition digit_val (c : N) : N :=
  if is_digit c then (c - 48)%N
  else if ((97 <=? c) && (c <=? 102))%N then (c - 87)%N
  else if ((65 <=? c) && (c <=? 70))%N then (c - 55)%N
  else 255%N.

Definition digits_val (radix : N) (ds : jsstring) : Z :=
  Z.of_N (fold_left (fun acc d => (radix * acc + digit_val d)%N) ds 0%N).

Definition starts_with (p s : jsstring) : option jsstring :=
  if decide (take (length p) s = p) then Some (drop (length p) s) else None.

(** The optional sign in front of a literal: the factor and the rest. *)
Definition read_sign (s : jsstring) : Z * jsstring :=
  match s with
  | c :: s' =>
      if (c =? 43)%N then (1%Z, s')
      else if (c =? 45)%N then ((-1)%Z, s')
      else (1%Z, s)
  | [] => (1%Z, s)
  end.

(** [ExponentPart], when one is there: the exponent and the rest. *)
Definition read_exponent (s : jsstring) : Z * jsstring :=
  match s with
  | c :: s' =>
      if (canon c =? 69)%N then
        let '(sg, s2) := read_sign s' in
        let '(ds, r) := span is_digit s2 in
        if is_nil ds then (0%Z, s) else ((sg * digits_val 10 ds)%Z, r)
      else (0%Z, s)
  | [] => (0%Z, s)
  end.

(** The longest prefix of [s] that is a [StrDecimalLiteral], as its value
    and the rest of the string; [None] when no prefix is one. *)
Definition read_unsigned (s : jsstring) : option (num * jsstring) :=
  match starts_with (str "Infinity") s with
  | Some r => Some (PInf, r)
  | None =>
      let '(d1, r1) := span is_digit s in
      let '(d2, r2) :=
        match r1 with
        | c :: r1' => if (c =? 46)%N then span is_digit r1' else ([], r1)
        | [] => ([], r1)
        end in
      if is_nil d1 && is_nil d2 then None
      else
        let '(e, r3) := read_exponent r2 in
        let mant := inject_Z (digits_val 10 d1)
                    + inject_Z (digits_val 10 d2) / 10 ^ Z.of_nat (length d2) in
        Some (fin (mant * 10 ^ e), r3)
  end.

Definition read_decimal (s : jsstring) : option (num * jsstring) :=
  let '(sg, s') := read_sign s in
  match read_unsigned s' with
  | Some (v, r) => Some (js_mul (of_Z sg) v, r)
  | None => None
  end.

Definition trim_start (s : jsstring) : jsstring := snd (span is_space s).
Definition trim (s : jsstring) : jsstring := rev (trim_start (rev (trim_start s))).

Definition parseFloat (s : jsstring) : num :=
  match read_decimal (trim_start s) with
  | Some (v, _) => v
  | None => NaN
  end.

(** A literal with a radix prefix ([0x], [0o], [0b]): all of [ds] must be
    digits of the radix, and there must be one. *)
Definition read_radix (radix : N) (ds : jsstring) : num :=
  if negb (is_nil ds) && forallb (fun d => (digit_val d <? radix)%N) ds
  then of_Z (digits_val radix ds) else NaN.

(** [Number (s)] on a string. *)
Definition radix_prefix (t : jsstring) : option (N * jsstring) :=
  match t with
  | z :: c :: ds =>
      if (z =? 48)%N then
        if (canon c =? 88)%N then Some (16%N, ds)
        else if (canon c =? 79)%N then Some (8%N, ds)
        else if (canon c =? 66)%N then Some (2%N, ds)
        else None
      else None
  | _ => None
  end.

Definition Number (s : jsstring) : num :=
  let t := trim s in
  if is_nil t then Fin 0
  else
    match radix_prefix t with
    | Some (radix, ds) => read_radix radix ds
    | None =>
        match read_decimal t with
        | Some (v, []) => v
        | _ => NaN
        end
    end.

(* ------------------------------------------------------------------ *)
(** ** The Unity material parser [parseUnityMaterial] *)

(** The regular expression of [extractFloat],
    [-\s*NAME:\s*([\d.\-e]+)] with the [i] flag, as a backtracking matcher
    in continuation style.  [name] is spliced into the pattern as it is; the
    names used by the parser are made of letters and an underscore, which
    stand for themselves. *)

(** A literal piece of the pattern, compared without case. *)
Fixpoint re_lit (p s : jsstring) : option jsstring :=
  match p, s with
  | [], _ => Some s
  | a :: p', c :: s' => if ci_eq a c then re_lit p' s' else None
  | _ :: _, [] => None
  end.

(** [\s*] followed by [k]: the longest run first, then shorter ones. *)
Fixpoint re_spaces {A} (k : jsstring -> option A) (s : jsstring) : option A :=
  match s with
  | c :: s' =>
      if is_space c then
        match re_spaces k s' with
        | Some r => Some r
        | None => k s
        end
      else k s
  | [] => k []
  end.

(** The class [[\d.\-e]] under the [i] flag. *)
Definition num_class (c : N) : bool :=
  (is_digit c || (c =? 46) || (c =? 45) || (canon c =? 69))%N.

(** The group [([\d.\-e]+)] at the end of the pattern: the longest run. *)
Definition re_capture (s : jsstring) : option jsstring :=
  let '(cap, _) := span num_class s in
  if is_nil cap then None else Some cap.

(** A match of the whole pattern starting at the head of [s]: the text of
    the group. *)
Definition match_at (name s : jsstring) : option jsstring :=
  match re_lit (str "-") s with
  | Some s1 =>
      re_spaces (fun s2 =>
        match re_lit name s2 with
        | Some s3 =>
            match re_lit (str ":") s3 with
            | Some s4 => re_spaces re_capture s4
            | None => None
            end
        | None => None
        end) s1
  | None => None
  end.

(** [text.match (regex)]: the match at the leftmost position that has one. *)
Fixpoint text_match (name text : jsstring) : option jsstring :=
  match match_at name text with
  | Some cap => Some cap
  | None =>
      match text with
      | [] => None
      | _ :: text' => text_match name text'
      end
  end.

(** [extractFloat]: [None] is [undefined]. *)
Definition extractFloat (text name : jsstring) : option num :=
  match text_match name text with
  | Some cap => Some (parseFloat cap)
  | None => None
  end.

(** [Partial<VatMetadata>]: an absent field is [None]. *)
Record VatMetadata : Type := mkMeta {
  m_numFrames : option num;
  m_fps : option num;
  m_posMin : option (num * num * num);
  m_posMax : option (num * num * num);
  m_packed : option bool
}.

Definition triple (x y z : option num) : option (num * num * num) :=
  match x, y, z with
  | Some a, Some b, Some c => Some (a, b, c)
  | _, _, _ => None
  end.

Definition parseUnityMaterial (text : jsstring) : VatMetadata :=
  let boundMinX := extractFloat text (str "_boundMinX") in
  let boundMinY := extractFloat text (str "_boundMinY") in
  let boundMinZ := extractFloat text (str "_boundMinZ") in
  let boundMaxX := extractFloat text (str "_boundMaxX") in
  let boundMaxY := extractFloat text (str "_boundMaxY") in
  let boundMaxZ := extractFloat text (str "_boundMaxZ") in
  let frameCount := extractFloat text (str "_frameCount") in
  let fps := extractFloat text (str "_houdiniFPS") in
  {| m_posMin := triple boundMinX boundMinY boundMinZ;
     m_posMax := triple boundMaxX boundMaxY boundMaxZ;
     m_numFrames := match frameCount with
                    | Some v => Some (js_round v)
                    | None => None
                    end;
     m_fps := fps;
     m_packed := None |}.

(** The field names of the vendor format. *)
Definition vendorFields : list jsstring :=
  map str [ "_boundMinX"; "_boundMinY"; "_boundMinZ";
            "_boundMaxX"; "_boundMaxY"; "_boundMaxZ";
            "_frameCount"; "_houdiniFPS" ]%string.

Definition nl : string := String (ascii_of_nat 10) EmptyString.

(** A material file as the exporter writes it. *)
Definition sample_mat : jsstring :=
  str ("%YAML 1.1" ++ nl ++ "    m_Floats:" ++ nl
       ++ "    - _boundMaxX: 1.5" ++ nl
       ++ "    - _boundMaxY: 2" ++ nl
       ++ "    - _boundMaxZ: 3e-1" ++ nl
       ++ "    - _boundMinX: -1.5" ++ nl
       ++ "    - _boundMinY: -2" ++ nl
       ++ "    - _boundMinZ: -.25" ++ nl
       ++ "    - _frameCount: 48" ++ nl
       ++ "    - _houdiniFPS: 24.0" ++ nl)%string.

(** The same fields without [_boundMaxZ], and a fractional frame count. *)
Definition sample_mat_no_maxZ : jsstring :=
  str ("- _boundMaxX: 1.5" ++ nl ++ "- _boundMaxY: 2" ++ nl
       ++ "- _boundMinX: -1.5" ++ nl ++ "- _boundMinY: -2" ++ nl
       ++ "- _boundMinZ: -.25" ++ nl
       ++ "- _frameCount: 47.5" ++ nl ++ "- _houdiniFPS: 24.0" ++ nl)%string.

(* ------------------------------------------------------------------ *)
(** ** Player state and the playback controller *)

Definition js_strict_eq (a b : num) : bool :=
  match a, b with
  | Fin x, Fin y => Qeq_bool x y
  | PInf, PInf | NInf, NInf => true
  | _, _ => false
  end.

Record Texture : Type := mkTexture {
  tex_name : jsstring;
  tex_width : num;
  tex_height : num
}.

(** A [ShaderMaterial] of the player, with the uniforms the decode stage
    reads (the constant lighting uniforms are left out).  [mat_instanced]
    is the INSTANCES define. *)
Record ShaderMaterial : Type := mkMaterial {
  mat_instanced : bool;
  mat_disposed : bool;
  mat_positionTexture : Texture;
  mat_normalTexture : option Texture;
  mat_diffuseTexture : option Texture;
  mat_vatTime : num;
  mat_numFrames : num;
  mat_fps : num;
  mat_posMin : Shader.vec3;
  mat_posMax : Shader.vec3;
  mat_texSize : Shader.vec2;
  mat_isPacked : num;
  mat_flipV : num;
  mat_useOffset : num;
  mat_debugMode : num;
  mat_useNormalTex : num;
  mat_useDiffuseTex : num
}.

Definition uniforms_of (m : ShaderMaterial) : Shader.Uniforms :=
  Shader.mkUniforms (mat_vatTime m) (mat_numFrames m) (mat_fps m)
    (mat_posMin m) (mat_posMax m) (mat_isPacked m) (mat_flipV m) (mat_useOffset m).

(** What a mesh's [material] property holds: nothing, a material that came
    with the scene (with its [diffuseTexture] and [albedoTexture] properties,
    [None] when the property does not exist), or a reference to one of the
    player's shader materials. *)
Inductive MaterialRef : Type :=
| NoMaterial
| SceneMaterial (diffuseTexture albedoTexture : option (option Texture))
| ShaderRef (r : nat).

Record Mesh : Type := mkMesh {
  uniqueId : Z;
  mesh_name : jsstring;
  hasUV2 : bool;
  skeletonPosed : option bool;
  material : MaterialRef;
  thinInstanceCount : num;
  thinMatrixBuffer : list num;
  thinTimeOffsetBuffer : list num
}.

(** The text shown in the status element. *)
Inductive Status : Type :=
| StatusIdle
| LoadPositionTextureFirst
| SelectMeshFirst
| MeshHasNoUV2
| VatApplied (meshName : jsstring) (numFrames fps : num) (posMin posMax : Shader.vec3)
| InstancingDisabled
| InstancingEnabled (instanceCount gridSize spacing animDuration : num)
| Playing
| Paused
| ResetToFrame0.

(** The messages that report a failed precondition. *)
Definition is_validation_failure (st : Status) : bool :=
  match st with
  | LoadPositionTextureFirst | SelectMeshFirst | MeshHasNoUV2 => true
  | _ => false
  end.

(** The values of the controls of the panel. *)
Record Controls : Type := mkControls {
  meshSelect : jsstring;
  numFramesInput : jsstring;
  fpsInput : jsstring;
  speedInput : jsstring;
  posMinX : jsstring; posMinY : jsstring; posMinZ : jsstring;
  posMaxX : jsstring; posMaxY : jsstring; posMaxZ : jsstring;
  flipVCheckbox : bool;
  useOffsetCheckbox : bool;
  debugModeSelect : jsstring;
  instancedModeCheckbox : bool;
  instanceCountInput : jsstring;
  instanceSpacingInput : jsstring
}.

(** The module-level variables, the scene and the panel.  A shader material
    is an object shared by reference between the variables and the meshes:
    [materials] holds every one created, and a reference is its position. *)
Record State : Type := mkState {
  positionTexture : option Texture;
  normalTexture : option Texture;
  materials : list ShaderMaterial;
  vatMaterial : option nat;
  vatMaterialInstanced : option nat;
  originalMaterials : gmap Z MaterialRef;
  vatTime : num;
  isPlaying : bool;
  isPacked : bool;
  currentVatMesh : option nat;             (* position in [meshes] *)
  isInstancedMode : bool;
  meshes : list Mesh;                      (* scene.meshes *)
  sceneAnimating : bool;
  controls : Controls;
  status : Status
}.

Definition setStatus (msg : Status) (s : State) : State :=
  {| positionTexture := positionTexture s; normalTexture := normalTexture s;
     materials := materials s; vatMaterial := vatMaterial s;
     vatMaterialInstanced := vatMaterialInstanced s;
     originalMaterials := originalMaterials s; vatTime := vatTime s;
     isPlaying := isPlaying s; isPacked := isPacked s;
     currentVatMesh := currentVatMesh s; isInstancedMode := isInstancedMode s;
     meshes := meshes s; sceneAnimating := sceneAnimating s;
     controls := controls s; status := msg |}.

Definition bool_float (b : bool) : num := if b then Fin 1 else Fin 0.

Definition set_mesh_material (r : MaterialRef) (m : Mesh) : Mesh :=
  mkMesh (uniqueId m) (mesh_name m) (hasUV2 m) (skeletonPosed m) r
    (thinInstanceCount m) (thinMatrixBuffer m) (thinTimeOffsetBuffer m).

Definition set_mat_vatTime (t : num) (m : ShaderMaterial) : ShaderMaterial :=
  mkMaterial (mat_instanced m) (mat_disposed m) (mat_positionTexture m)
    (mat_normalTexture m) (mat_diffuseTexture m) t (mat_numFrames m) (mat_fps m)
    (mat_posMin m) (mat_posMax m) (mat_texSize m) (mat_isPacked m) (mat_flipV m)
    (mat_useOffset m) (mat_debugMode m) (mat_useNormalTex m) (mat_useDiffuseTex m).

Definition dispose (m : ShaderMaterial) : ShaderMaterial :=
  mkMaterial (mat_instanced m) true (mat_positionTexture m)
    (mat_normalTexture m) (mat_diffuseTexture m) (mat_vatTime m) (mat_numFrames m)
    (mat_fps m) (mat_posMin m) (mat_posMax m) (mat_texSize m) (mat_isPacked m)
    (mat_flipV m) (mat_useOffset m) (mat_debugMode m) (mat_useNormalTex m)
    (mat_useDiffuseTex m).

(** [ref?.f ()] on an optional reference into [materials]. *)
Definition on_material (f : ShaderMaterial -> ShaderMaterial) (r : option nat)
    (ms : list ShaderMaterial) : list ShaderMaterial :=
  match r with
  | Some i => alter f i ms
  | None => ms
  end.

(** The uniforms that [applyVat] and [applyInstancing] read from the panel:
    [Number (input.value) || 24] and the like. *)
Definition read_numFrames (c : Controls) : num := js_or (Number (numFramesInput c)) (Fin 24).
Definition read_fps (c : Controls) : num := js_or (Number (fpsInput c)) (Fin 24).
Definition read_posMin (c : Controls) : Shader.vec3 :=
  (Number (posMinX c), Number (posMinY c), Number (posMinZ c)).
Definition read_posMax (c : Controls) : Shader.vec3 :=
  (Number (posMaxX c), Number (posMaxY c), Number (posMaxZ c)).

Definition new_material (instanced : bool) (s : State) (tex : Texture)
    (time : num) (diffuseTex : option Texture) : ShaderMaterial :=
  let c := controls s in
  {| mat_instanced := instanced;
     mat_disposed := false;
     mat_positionTexture := tex;
     mat_normalTexture := normalTexture s;
     mat_diffuseTexture := diffuseTex;
     mat_vatTime := time;
     mat_numFrames := read_numFrames c;
     mat_fps := read_fps c;
     mat_posMin := read_posMin c;
     mat_posMax := read_posMax c;
     mat_texSize := (tex_width tex, tex_height tex);
     mat_isPacked := bool_float (isPacked s);
     mat_flipV := bool_float (flipVCheckbox c);
     mat_useOffset := bool_float (useOffsetCheckbox c);
     mat_debugMode := Number (debugModeSelect c);
     mat_useNormalTex := bool_float (bool_decide (is_Some (normalTexture s)));
     mat_useDiffuseTex := bool_float (bool_decide (is_Some diffuseTex)) |}.

(** [applyInstancing (enable)] *)
Definition applyInstancing (enable : bool) (s : State) : State :=
  match currentVatMesh s, vatMaterial s, positionTexture s with
  | Some cur, Some vat, Some tex =>
      if negb enable then
        {| positionTexture := positionTexture s; normalTexture := normalTexture s;
           materials := on_material dispose (vatMaterialInstanced s) (materials s);
           vatMaterial := vatMaterial s;
           vatMaterialInstanced := None;
           originalMaterials := originalMaterials s; vatTime := vatTime s;
           isPlaying := isPlaying s; isPacked := isPacked s;
           currentVatMesh := currentVatMesh s; isInstancedMode := false;
           meshes := alter (fun m =>
                       mkMesh (uniqueId m) (mesh_name m) (hasUV2 m) (skeletonPosed m)
                         (ShaderRef vat) (Fin 0)
                         (thinMatrixBuffer m) (thinTimeOffsetBuffer m)) cur (meshes s);
           sceneAnimating := sceneAnimating s;
           controls := controls s; status := InstancingDisabled |}
      else
        let c := controls s in
        let ms := on_material dispose (vatMaterialInstanced s) (materials s) in
        let inst := new_material true s tex (vatTime s) None in
        let r := length ms in
        match instanceLayout (Number (instanceCountInput c))
                (Number (instanceSpacingInput c))
                (read_numFrames c) (read_fps c) with
        | Some L =>
            {| positionTexture := positionTexture s; normalTexture := normalTexture s;
               materials := ms ++ [inst];
               vatMaterial := vatMaterial s;
               vatMaterialInstanced := Some r;
               originalMaterials := originalMaterials s; vatTime := vatTime s;
               isPlaying := isPlaying s; isPacked := isPacked s;
               currentVatMesh := currentVatMesh s; isInstancedMode := true;
               meshes := alter (fun m =>
                           mkMesh (uniqueId m) (mesh_name m) (hasUV2 m) (skeletonPosed m)
                             (ShaderRef r)
                             (js_div (of_Z (Z.of_nat (length (matricesData L)))) (Fin 16))
                             (matricesData L) (timeOffsets L)) cur (meshes s);
               sceneAnimating := sceneAnimating s;
               controls := controls s;
               status := InstancingEnabled (instanceCount L) (gridSize L)
                           (spacing L) (animDuration L) |}
        | None => s    (* not taken: the layout loop always ends *)
        end
  | _, _, _ => s
  end.

(** The first mesh of the scene whose [uniqueId] is [meshId], with its
    position. *)
Definition find_mesh (meshId : num) (ms : list Mesh) : option (nat * Mesh) :=
  list_find (fun m => js_strict_eq (of_Z (uniqueId m)) meshId = true) ms.

(** The diffuse texture taken from the original material. *)
Definition diffuse_of (origMat : option MaterialRef) : option Texture :=
  match origMat with
  | Some (SceneMaterial (Some d) _) => d
  | Some (SceneMaterial None (Some a)) => a
  | _ => None
  end.

(** [applyVat].  The calls into the engine inside the [try] block are taken
    not to throw. *)
Definition applyVat (s : State) : State :=
  match positionTexture s with
  | None => setStatus LoadPositionTextureFirst s
  | Some tex =>
      let c := controls s in
      let meshId := Number (meshSelect c) in
      match find_mesh meshId (meshes s) with
      | None => setStatus SelectMeshFirst s
      | Some (idx, mesh) =>
          if negb (hasUV2 mesh) then setStatus MeshHasNoUV2 s
          else
            let originals :=
              match originalMaterials s !! uniqueId mesh with
              | Some _ => originalMaterials s
              | None => <[uniqueId mesh := material mesh]> (originalMaterials s)
              end in
            let diffuseTex := diffuse_of (originals !! uniqueId mesh) in
            let vat := new_material false s tex (Fin 0) diffuseTex in
            let r := length (materials s) in
            let s1 :=
              {| positionTexture := positionTexture s; normalTexture := normalTexture s;
                 materials := materials s ++ [vat];
                 vatMaterial := Some r;
                 vatMaterialInstanced := vatMaterialInstanced s;
                 originalMaterials := originals;
                 vatTime := Fin 0;
                 isPlaying := false; isPacked := isPacked s;
                 currentVatMesh := Some idx; isInstancedMode := isInstancedMode s;
                 meshes := alter (fun m =>
                             mkMesh (uniqueId m) (mesh_name m) (hasUV2 m)
                               (match skeletonPosed m with
                                | Some _ => Some false
                                | None => None
                                end)
                               (ShaderRef r) (thinInstanceCount m)
                               (thinMatrixBuffer m) (thinTimeOffsetBuffer m)) idx (meshes s);
                 sceneAnimating := false;
                 controls := controls s; status := status s |} in
            let s2 := if instancedModeCheckbox c then applyInstancing true s1 else s1 in
            setStatus (VatApplied (mesh_name mesh) (read_numFrames c) (read_fps c)
                         (read_posMin c) (read_posMax c)) s2
      end
  end.

(** One turn of the render loop; [deltaTime] is [engine.getDeltaTime ()]. *)
Definition renderTick (deltaTime : num) (s : State) : State :=
  if isPlaying s then
    let speed := js_or (Number (speedInput (controls s))) (Fin 1) in
    let t := js_add (vatTime s) (js_mul (js_div deltaTime (Fin 1000)) speed) in
    {| positionTexture := positionTexture s; normalTexture := normalTexture s;
       materials := on_material (set_mat_vatTime t) (vatMaterialInstanced s)
                      (on_material (set_mat_vatTime t) (vatMaterial s) (materials s));
       vatMaterial := vatMaterial s;
       vatMaterialInstanced := vatMaterialInstanced s;
       originalMaterials := originalMaterials s; vatTime := t;
       isPlaying := isPlaying s; isPacked := isPacked s;
       currentVatMesh := currentVatMesh s; isInstancedMode := isInstancedMode s;
       meshes := meshes s; sceneAnimating := sceneAnimating s;
       controls := controls s; status := status s |}
  else s.

(** The transport buttons. *)
Definition playClick (s : State) : State :=
  {| positionTexture := positionTexture s; normalTexture := normalTexture s;
     materials := materials s; vatMaterial := vatMaterial s;
     vatMaterialInstanced := vatMaterialInstanced s;
     originalMaterials := originalMaterials s; vatTime := vatTime s;
     isPlaying := true; isPacked := isPacked s;
     currentVatMesh := currentVatMesh s; isInstancedMode := isInstancedMode s;
     meshes := meshes s; sceneAnimating := sceneAnimating s;
     controls := controls s; status := Playing |}.

Definition pauseClick (s : State) : State :=
  {| positionTexture := positionTexture s; normalTexture := normalTexture s;
     materials := materials s; vatMaterial := vatMaterial s;
     vatMaterialInstanced := vatMaterialInstanced s;
     originalMaterials := originalMaterials s; vatTime := vatTime s;
     isPlaying := false; isPacked := isPacked s;
     currentVatMesh := currentVatMesh s; isInstancedMode := isInstancedMode s;
     meshes := meshes s; sceneAnimating := sceneAnimating s;
     controls := controls s; status := Paused |}.

Definition resetClick (s : State) : State :=
  {| positionTexture := positionTexture s; normalTexture := normalTexture s;
     materials := on_material (set_mat_vatTime (Fin 0)) (vatMaterialInstanced s)
                    (on_material (set_mat_vatTime (Fin 0)) (vatMaterial s) (materials s));
     vatMaterial := vatMaterial s;
     vatMaterialInstanced := vatMaterialInstanced s;
     originalMaterials := originalMaterials s; vatTime := Fin 0;
     isPlaying := isPlaying s; isPacked := isPacked s;
     currentVatMesh := currentVatMesh s; isInstancedMode := isInstancedMode s;
     meshes := meshes s; sceneAnimating := sceneAnimating s;
     controls := controls s; status := ResetToFrame0 |}.

(* ------------------------------------------------------------------ *)
(** ** Vocabulary of the statements *)








(** [s] begins with an occurrence of the pattern for [name] whose number
    run is [cap]: a dash, white space, the name in any case, a colon, white
    space, then [cap], the longest non-empty run of digits, dots, dashes and
    the letter e. *)
Definition shape_at (name s cap : jsstring) : Prop :=
  exists w1 nm w2 rest,
    s = str "-" ++ w1 ++ nm ++ str ":" ++ w2 ++ cap ++ rest
    /\ forallb is_space w1 = true
    /\ map canon nm = map canon name
    /\ forallb is_space w2 = true
    /\ cap <> []
    /\ forallb num_class cap = true
    /\ match rest with c :: _ => num_class c = false | [] => True end.











(** A name that can be told from the white space in front of it. *)
Definition name_ok (name : jsstring) : Prop :=
  match name with c :: _ => is_space c = false | [] => True end.


(** The material that [vatMaterial] refers to. *)
Definition applied_material (s : State) : option ShaderMaterial :=
  match vatMaterial s with
  | Some r => materials s !! r
  | None => None
  end.

(** A player with a position texture loaded and one mesh selected; the
    parameters are whether the mesh has a UV2 channel, whether instancing is
    ticked, and the texts of the frame-count and speed fields. *)
Definition demo_texture : Texture := mkTexture (str "cloth_pos.png") (Fin 512) (Fin 256).

Definition demo_mesh (uv2 : bool) : Mesh :=
  {| uniqueId := 7; mesh_name := str "cloth"; hasUV2 := uv2;
     skeletonPosed := None;
     material := SceneMaterial None (Some None);
     thinInstanceCount := Fin 0; thinMatrixBuffer := []; thinTimeOffsetBuffer := [] |}.

Definition demo_controls (instanced : bool) (numFramesText speedText : string) : Controls :=
  {| meshSelect := str "7";
     numFramesInput := str numFramesText; fpsInput := str "24";
     speedInput := str speedText;
     posMinX := str "-1"; posMinY := str "-1"; posMinZ := str "-1";
     posMaxX := str "1"; posMaxY := str "1"; posMaxZ := str "1";
     flipVCheckbox := false; useOffsetCheckbox := true;
     debugModeSelect := str "0";
     instancedModeCheckbox := instanced;
     instanceCountInput := str "4"; instanceSpacingInput := str "3" |}.

Definition demo_state (uv2 instanced playing : bool) (numFramesText speedText : string) : State :=
  {| positionTexture := Some demo_texture; normalTexture := None;
     materials := []; vatMaterial := None; vatMaterialInstanced := None;
     originalMaterials := ∅;
     vatTime := Fin (3 # 2); isPlaying := playing; isPacked := true;
     currentVatMesh := None; isInstancedMode := false;
     meshes := [demo_mesh uv2]; sceneAnimating := true;
     controls := demo_controls instanced numFramesText speedText;
     status := StatusIdle |}.

(* ------------------------------------------------------------------ *)
(** ** The rest of the panel: events and their listeners *)

(** The text controls and the check boxes of the panel. *)
Inductive TextField : Type :=
| FMeshSelect | FNumFrames | FFps | FSpeed | FPosMinX | FPosMinY | FPosMinZ | FPosMaxX | FPosMaxY | FPosMaxZ | FDebugMode | FInstanceCount | FInstanceSpacing.

Inductive CheckBox : Type :=
| BFlipV | BUseOffset | BInstancedMode.

(** What the browser does when the user edits a control. *)
Definition set_text (f : TextField) (v : jsstring) (c : Controls) : Controls :=
  {| meshSelect := match f with FMeshSelect => v | _ => meshSelect c end;
     numFramesInput := match f with FNumFrames => v | _ => numFramesInput c end;
     fpsInput := match f with FFps => v | _ => fpsInput c end;
     speedInput := match f with FSpeed => v | _ => speedInput c end;
     posMinX := match f with FPosMinX => v | _ => posMinX c end;
     posMinY := match f with FPosMinY => v | _ => posMinY c end;
     posMinZ := match f with FPosMinZ => v | _ => posMinZ c end;
     posMaxX := match f with FPosMaxX => v | _ => posMaxX c end;
     posMaxY := match f with FPosMaxY => v | _ => posMaxY c end;
     posMaxZ := match f with FPosMaxZ => v | _ => posMaxZ c end;
     flipVCheckbox := flipVCheckbox c;
     useOffsetCheckbox := useOffsetCheckbox c;
     debugModeSelect := match f with FDebugMode => v | _ => debugModeSelect c end;
     instancedModeCheckbox := instancedModeCheckbox c;
     instanceCountInput := match f with FInstanceCount => v | _ => instanceCountInput c end;
     instanceSpacingInput := match f with FInstanceSpacing => v | _ => instanceSpacingInput c end |}.

Definition set_check (k : CheckBox) (b : bool) (c : Controls) : Controls :=
  {| meshSelect := meshSelect c;
     numFramesInput := numFramesInput c;
     fpsInput := fpsInput c;
     speedInput := speedInput c;
     posMinX := posMinX c;
     posMinY := posMinY c;
     posMinZ := posMinZ c;
     posMaxX := posMaxX c;
     posMaxY := posMaxY c;
     posMaxZ := posMaxZ c;
     flipVCheckbox := match k with BFlipV => b | _ => flipVCheckbox c end;
     useOffsetCheckbox := match k with BUseOffset => b | _ => useOffsetCheckbox c end;
     debugModeSelect := debugModeSelect c;
     instancedModeCheckbox := match k with BInstancedMode => b | _ => instancedModeCheckbox c end;
     instanceCountInput := instanceCountInput c;
     instanceSpacingInput := instanceSpacingInput c |}.

Definition set_controls (v : Controls) (s : State) : State :=
  {| positionTexture := positionTexture s;
     normalTexture := normalTexture s;
     materials := materials s;
     vatMaterial := vatMaterial s;
     vatMaterialInstanced := vatMaterialInstanced s;
     originalMaterials := originalMaterials s;
     vatTime := vatTime s;
     isPlaying := isPlaying s;
     isPacked := isPacked s;
     currentVatMesh := currentVatMesh s;
     isInstancedMode := isInstancedMode s;
     meshes := meshes s;
     sceneAnimating := sceneAnimating s;
     controls := v;
     status := status s |}.

Definition set_materials (v : list ShaderMaterial) (s : State) : State :=
  {| positionTexture := positionTexture s;
     normalTexture := normalTexture s;
     materials := v;
     vatMaterial := vatMaterial s;
     vatMaterialInstanced := vatMaterialInstanced s;
     originalMaterials := originalMaterials s;
     vatTime := vatTime s;
     isPlaying := isPlaying s;
     isPacked := isPacked s;
     currentVatMesh := currentVatMesh s;
     isInstancedMode := isInstancedMode s;
     meshes := meshes s;
     sceneAnimating := sceneAnimating s;
     controls := controls s;
     status := status s |}.

Definition set_isPacked (v : bool) (s : State) : State :=
  {| positionTexture := positionTexture s;
     normalTexture := normalTexture s;
     materials := materials s;
     vatMaterial := vatMaterial s;
     vatMaterialInstanced := vatMaterialInstanced s;
     originalMaterials := originalMaterials s;
     vatTime := vatTime s;
     isPlaying := isPlaying s;
     isPacked := v;
     currentVatMesh := currentVatMesh s;
     isInstancedMode := isInstancedMode s;
     meshes := meshes s;
     sceneAnimating := sceneAnimating s;
     controls := controls s;
     status := status s |}.

Definition set_mat_flipV (v : num) (m : ShaderMaterial) : ShaderMaterial :=
  {| mat_instanced := mat_instanced m;
     mat_disposed := mat_disposed m;
     mat_positionTexture := mat_positionTexture m;
     mat_normalTexture := mat_normalTexture m;
     mat_diffuseTexture := mat_diffuseTexture m;
     mat_vatTime := mat_vatTime m;
     mat_numFrames := mat_numFrames m;
     mat_fps := mat_fps m;
     mat_posMin := mat_posMin m;
     mat_posMax := mat_posMax m;
     mat_texSize := mat_texSize m;
     mat_isPacked := mat_isPacked m;
     mat_flipV := v;
     mat_useOffset := mat_useOffset m;
     mat_debugMode := mat_debugMode m;
     mat_useNormalTex := mat_useNormalTex m;
     mat_useDiffuseTex := mat_useDiffuseTex m |}.

Definition set_mat_useOffset (v : num) (m : ShaderMaterial) : ShaderMaterial :=
  {| mat_instanced := mat_instanced m;
     mat_disposed := mat_disposed m;
     mat_positionTexture := mat_positionTexture m;
     mat_normalTexture := mat_normalTexture m;
     mat_diffuseTexture := mat_diffuseTexture m;
     mat_vatTime := mat_vatTime m;
     mat_numFrames := mat_numFrames m;
     mat_fps := mat_fps m;
     mat_posMin := mat_posMin m;
     mat_posMax := mat_posMax m;
     mat_texSize := mat_texSize m;
     mat_isPacked := mat_isPacked m;
     mat_flipV := mat_flipV m;
     mat_useOffset := v;
     mat_debugMode := mat_debugMode m;
     mat_useNormalTex := mat_useNormalTex m;
     mat_useDiffuseTex := mat_useDiffuseTex m |}.

Definition set_mat_debugMode (v : num) (m : ShaderMaterial) : ShaderMaterial :=
  {| mat_instanced := mat_instanced m;
     mat_disposed := mat_disposed m;
     mat_positionTexture := mat_positionTexture m;
     mat_normalTexture := mat_normalTexture m;
     mat_diffuseTexture := mat_diffuseTexture m;
     mat_vatTime := mat_vatTime m;
     mat_numFrames := mat_numFrames m;
     mat_fps := mat_fps m;
     mat_posMin := mat_posMin m;
     mat_posMax := mat_posMax m;
     mat_texSize := mat_texSize m;
     mat_isPacked := mat_isPacked m;
     mat_flipV := mat_flipV m;
     mat_useOffset := mat_useOffset m;
     mat_debugMode := v;
     mat_useNormalTex := mat_useNormalTex m;
     mat_useDiffuseTex := mat_useDiffuseTex m |}.

(** [if (vatMaterial) vatMaterial.setFloat (...); if (vatMaterialInstanced)
    vatMaterialInstanced.setFloat (...)] *)
Definition on_both (f : ShaderMaterial -> ShaderMaterial) (s : State) : State :=
  set_materials
    (on_material f (vatMaterialInstanced s) (on_material f (vatMaterial s) (materials s))) s.

(** The [change] listeners of the debug mode, flip V and use offset
    controls. *)
Definition debugModeChange (value : jsstring) (s : State) : State :=
  on_both (set_mat_debugMode (Number value))
    (set_controls (set_text FDebugMode value (controls s)) s).

Definition flipVChange (checked : bool) (s : State) : State :=
  on_both (set_mat_flipV (bool_float checked))
    (set_controls (set_check BFlipV checked (controls s)) s).

Definition useOffsetChange (checked : bool) (s : State) : State :=
  on_both (set_mat_useOffset (bool_float checked))
    (set_controls (set_check BUseOffset checked (controls s)) s).

(** The [change] listeners of the instancing controls. *)
Definition instancedModeChange (checked : bool) (s : State) : State :=
  let s1 := set_controls (set_check BInstancedMode checked (controls s)) s in
  match currentVatMesh s1 with
  | Some _ => applyInstancing checked s1
  | None => s1
  end.

Definition instancingTextChange (f : TextField) (value : jsstring) (s : State) : State :=
  let s1 := set_controls (set_text f value (controls s)) s in
  match currentVatMesh s1 with
  | Some _ => if instancedModeCheckbox (controls s1) then applyInstancing true s1 else s1
  | None => s1
  end.

(** What can happen to the player once a scene and textures are loaded. *)
Inductive Event : Type :=
| ClickApply
| ClickPlay
| ClickPause
| ClickReset
| RenderFrame (deltaTime : num)
| EditText (f : TextField) (value : jsstring)
| ToggleCheck (k : CheckBox) (checked : bool).

Definition handle (ev : Event) (s : State) : State :=
  match ev with
  | ClickApply => applyVat s
  | ClickPlay => playClick s
  | ClickPause => pauseClick s
  | ClickReset => resetClick s
  | RenderFrame deltaTime => renderTick deltaTime s
  | EditText FDebugMode value => debugModeChange value s
  | EditText FInstanceCount value => instancingTextChange FInstanceCount value s
  | EditText FInstanceSpacing value => instancingTextChange FInstanceSpacing value s
  | EditText f value => set_controls (set_text f value (controls s)) s
  | ToggleCheck BFlipV checked => flipVChange checked s
  | ToggleCheck BUseOffset checked => useOffsetChange checked s
  | ToggleCheck BInstancedMode checked => instancedModeChange checked s
  end.

Definition run (evs : list Event) (s : State) : State :=
  fold_left (fun st ev => handle ev st) evs s.

(** The material that [vatMaterialInstanced] refers to. *)
Definition instanced_material (s : State) : option ShaderMaterial :=
  match vatMaterialInstanced s with
  | Some r => materials s !! r
  | None => None
  end.

(* ------------------------------------------------------------------ *)
(** ** Metadata files *)

(** [text.includes (needle)] *)
Fixpoint is_prefix (p s : jsstring) : bool :=
  match p, s with
  | [], _ => true
  | a :: p', c :: s' => (a =? c)%N && is_prefix p' s'
  | _ :: _, [] => false
  end.

Fixpoint includes (needle text : jsstring) : bool :=
  is_prefix needle text
  || match text with
     | [] => false
     | _ :: text' => includes needle text'
     end.

(** The test of the metadata listener that sends a file to
    [parseUnityMaterial] rather than to [JSON.parse]. *)
Definition isUnityMaterial (text : jsstring) : bool :=
  includes (str "%YAML") text
  || includes (str "_boundMinX:") text
  || includes (str "_frameCount:") text.

(** [applyMetadata].  [toString] is [String] on numbers. *)
Definition applyMetadata (toString : num -> jsstring) (meta : VatMetadata) (s : State) : State :=
  let c0 := controls s in
  let c1 := match m_numFrames meta with
            | Some v => set_text FNumFrames (toString v) c0
            | None => c0
            end in
  let c2 := match m_fps meta with
            | Some v => set_text FFps (toString v) c1
            | None => c1
            end in
  let c3 := match m_posMin meta with
            | Some (x, y, z) =>
                set_text FPosMinZ (toString z)
                  (set_text FPosMinY (toString y) (set_text FPosMinX (toString x) c2))
            | None => c2
            end in
  let c4 := match m_posMax meta with
            | Some (x, y, z) =>
                set_text FPosMaxZ (toString z)
                  (set_text FPosMaxY (toString y) (set_text FPosMaxX (toString x) c3))
            | None => c3
            end in
  let s1 := set_controls c4 s in
  match m_packed meta with
  | Some b => set_isPacked b s1
  | None => s1
  end.

(* ------------------------------------------------------------------ *)
(** ** Packed or HDR, from the name of the texture file *)

(** [name.split (".")]: the pieces between the dots, at least one. *)
Fixpoint split_on (sep : N) (s : jsstring) : list jsstring :=
  match s with
  | [] => [[]]
  | c :: s' =>
      if (c =? sep)%N then [] :: split_on sep s'
      else match split_on sep s' with
           | seg :: rest => (c :: seg) :: rest
           | [] => [[c]]
           end
  end.

(** [toLowerCase] on the ASCII letters.  The few code units above 127 that
    JavaScript lowers to ASCII give letters that are in none of the
    extensions below, so the test that follows is not affected. *)
Definition toLowerCase (s : jsstring) : jsstring :=
  map (fun c => if ((65 <=? c) && (c <=? 90))%N then (c + 32)%N else c) s.

Definition hdrExtensions : list jsstring :=
  map str ["exr"; "tiff"; "tif"; "hdr"]%string.

(** [file.name.split (".").pop ()?.toLowerCase () || ""] *)
Definition extension (name : jsstring) : jsstring :=
  match last (split_on 46 name) with
  | Some seg => toLowerCase seg
  | None => []
  end.

(** [isPacked] as the position-texture listener computes it. *)
Definition isPackedFile (name : jsstring) : bool :=
  negb (bool_decide (extension name ∈ hdrExtensions)).










(** What the listeners do to the mesh they work on. *)
Definition with_vat_material (r : nat) (m : Mesh) : Mesh :=
  mkMesh (uniqueId m) (mesh_name m) (hasUV2 m)
    (match skeletonPosed m with Some _ => Some false | None => None end)
    (ShaderRef r) (thinInstanceCount m) (thinMatrixBuffer m) (thinTimeOffsetBuffer m).

Definition with_instances (r : nat) (L : Layout) (m : Mesh) : Mesh :=
  mkMesh (uniqueId m) (mesh_name m) (hasUV2 m) (skeletonPosed m) (ShaderRef r)
    (js_div (of_Z (Z.of_nat (length (matricesData L)))) (Fin 16))
    (matricesData L) (timeOffsets L).

Definition without_instances (vat : nat) (m : Mesh) : Mesh :=
  mkMesh (uniqueId m) (mesh_name m) (hasUV2 m) (skeletonPosed m) (ShaderRef vat)
    (Fin 0) (thinMatrixBuffer m) (thinTimeOffsetBuffer m).

(** The original material that [applyVat] keeps for a mesh. *)
Definition remember_original (mesh : Mesh) (orig : gmap Z MaterialRef) : gmap Z MaterialRef :=
  match orig !! uniqueId mesh with
  | Some _ => orig
  | None => <[uniqueId mesh := material mesh]> orig
  end.

(** The decode uniforms that the panel asks for. *)
Definition panel_uniforms (s : State) (time : num) : Shader.Uniforms :=
  Shader.mkUniforms time (read_numFrames (controls s)) (read_fps (controls s))
    (read_posMin (controls s)) (read_posMax (controls s))
    (bool_float (isPacked s)) (bool_float (flipVCheckbox (controls s)))
    (bool_float (useOffsetCheckbox (controls s))).

(** The layout for the values of the panel. *)
Definition panel_layout (s : State) : option Layout :=
  instanceLayout (Number (instanceCountInput (controls s)))
    (Number (instanceSpacingInput (controls s)))
    (read_numFrames (controls s)) (read_fps (controls s)).

(** A material shows the clock of the player and the switches of the
    panel. *)
Definition in_step (s : State) (m : ShaderMaterial) : Prop :=
  mat_vatTime m = vatTime s
  /\ mat_flipV m = bool_float (flipVCheckbox (controls s))
  /\ mat_useOffset m = bool_float (useOffsetCheckbox (controls s))
  /\ mat_debugMode m = Number (debugModeSelect (controls s)).

(** A reference, when set, leads to a material that is in step. *)
Definition ref_in_step (s : State) (r : option nat) : Prop :=
  forall i, r = Some i -> exists m, materials s !! i = Some m /\ in_step s m.

(** The material the current mesh is meant to show. *)
Definition shown_material (s : State) : option nat :=
  if isInstancedMode s then vatMaterialInstanced s else vatMaterial s.

(** The variables of the player agree with each other. *)
Definition consistent (s : State) : Prop :=
  ref_in_step s (vatMaterial s)
  /\ ref_in_step s (vatMaterialInstanced s)
  /\ (is_Some (vatMaterialInstanced s) ->
      instancedModeCheckbox (controls s) = true /\ is_Some (currentVatMesh s))
  /\ (is_Some (currentVatMesh s) ->
      is_Some (vatMaterial s) /\ is_Some (positionTexture s))
  /\ isInstancedMode s
     = match vatMaterialInstanced s with Some _ => true | None => false end
  /\ (forall c, currentVatMesh s = Some c ->
        exists mesh r, meshes s !! c = Some mesh
                       /\ shown_material s = Some r
                       /\ material mesh = ShaderRef r).

(** The player before any activation, as [resetState] leaves it. *)
Definition fresh (s : State) : Prop :=
  vatMaterial s = None /\ vatMaterialInstanced s = None
  /\ currentVatMesh s = None /\ isInstancedMode s = false.

(* ================================================================== *)
(** * Properties *)

(** ** Arithmetic of [num] on finite values *)


Lemma Qeq_bool_false_iff (y : Q) : Qeq_bool y 0 = false <-> ~ y == 0.
Proof.
  split.
  - apply Qeq_bool_neq.
  - intros Hy. destruct (Qeq_bool y 0) eqn:E; [|reflexivity].
    apply Qeq_bool_eq in E. contradiction.
Qed.



(** ** Frame selection *)



Example frame_at_one_second : Shader.frame (Fin 1) (Fin 2) (Fin 4) = Fin 2.
Proof. reflexivity. Qed.

(** ** Dequantization *)






(** ** The instance layout *)

Lemma js_lt_fin (x y : Q) : js_lt (Fin x) (Fin y) = true <-> x < y.
Proof.
  unfold js_lt. rewrite Qlt_alt. destruct (x ?= y); intuition congruence.
Qed.

Lemma js_lt_fin_false (x y : Q) : js_lt (Fin x) (Fin y) = false <-> y <= x.
Proof.
  unfold js_lt.
  destruct (Qcompare_spec x y) as [H|H|H]; split; intros;
    try reflexivity; try discriminate; lra.
Qed.

Lemma copyToArray_length (m array : list num) (offset : nat) :
  length (copyToArray m array offset) = length array.
Proof.
  revert array offset. induction m as [|v m IH]; intros array offset; simpl.
  - reflexivity.
  - rewrite IH. apply length_insert.
Qed.

Lemma copyToArray_lookup_outside (m array : list num) (offset p : nat) :
  (p < offset \/ offset + length m <= p)%nat ->
  copyToArray m array offset !! p = array !! p.
Proof.
  revert array offset. induction m as [|v m IH]; intros array offset Hp; simpl.
  - reflexivity.
  - simpl in Hp. rewrite IH by lia. apply list_lookup_insert_ne. lia.
Qed.

Lemma copyToArray_lookup_inside (m array : list num) (offset k : nat) :
  (k < length m)%nat -> (offset + k < length array)%nat ->
  copyToArray m array offset !! (offset + k)%nat = m !! k.
Proof.
  revert array offset k. induction m as [|v m IH]; intros array offset k Hk Hlen; simpl in *.
  - lia.
  - destruct k as [|k].
    + rewrite copyToArray_lookup_outside by lia.
      rewrite Nat.add_0_r. apply list_lookup_insert_eq. lia.
    + replace (offset + S k)%nat with (S offset + k)%nat by lia.
      apply IH; [lia | rewrite length_insert; lia].
Qed.

Lemma layout_body_eq (g sp d go : num) (i : nat) (md tos : list num) :
  layout_body g sp d go i (md, tos)
  = (copyToArray (Translation (x_of g sp go i) (Fin 0) (z_of g sp go i)) md (i * 16),
     <[i := timeOffset_of g d i]> tos).
Proof. reflexivity. Qed.

Section LayoutLoopFacts.

Variables (c : Q) (g sp d go : num).

Lemma layout_loop_total (fuel i : nat) (bufs : list num * list num) :
  (Qceiling c - Z.of_nat i <= Z.of_nat fuel)%Z ->
  exists res, layout_loop (Fin c) g sp d go fuel i bufs = Some res.
Proof.
  revert i bufs. induction fuel as [|fuel IH]; intros i bufs Hf; cbn [layout_loop].
  - destruct (js_lt (of_Z (Z.of_nat i)) (Fin c)) eqn:E; [|eexists; reflexivity].
    apply js_lt_fin in E. pose proof (Qle_ceiling c) as Hc.
    assert (inject_Z (Z.of_nat i) < inject_Z (Qceiling c)) as Hi by lra.
    rewrite <- Zlt_Qlt in Hi. lia.
  - destruct (js_lt (of_Z (Z.of_nat i)) (Fin c)) eqn:E; [|eexists; reflexivity].
    apply IH. lia.
Qed.

Lemma layout_loop_spec (fuel i : nat) (bufs res : list num * list num) :
  layout_loop (Fin c) g sp d go fuel i bufs = Some res ->
  length (fst res) = length (fst bufs)
  /\ length (snd res) = length (snd bufs)
  /\ (forall p, (p < i * 16)%nat -> fst res !! p = fst bufs !! p)
  /\ (forall j, (j < i)%nat -> snd res !! j = snd bufs !! j)
  /\ (forall j, (i <= j)%nat -> inject_Z (Z.of_nat j) < c ->
        (forall k, (k < 16)%nat -> (j * 16 + k < length (fst bufs))%nat ->
           fst res !! (j * 16 + k)%nat
           = Translation (x_of g sp go j) (Fin 0) (z_of g sp go j) !! k)
        /\ ((j < length (snd bufs))%nat ->
            snd res !! j = Some (timeOffset_of g d j))).
Proof.
  revert i bufs. induction fuel as [|fuel IH]; intros i bufs; cbn [layout_loop].
  - destruct (js_lt (of_Z (Z.of_nat i)) (Fin c)) eqn:E; [discriminate|].
    intros [= <-]. apply js_lt_fin_false in E.
    repeat split; try reflexivity.
    all: intros; exfalso;
      assert (inject_Z (Z.of_nat i) <= inject_Z (Z.of_nat j))
        by (rewrite <- Zle_Qle; lia); lra.
  - destruct (js_lt (of_Z (Z.of_nat i)) (Fin c)) eqn:E.
    + intros Hres. destruct bufs as [md tos].
      rewrite layout_body_eq in Hres.
      destruct (IH _ _ Hres) as (L1 & L2 & P1 & P2 & P3).
      change (fst (?a, ?b)) with a in *. change (snd (?a, ?b)) with b in *.
      rewrite copyToArray_length in L1. rewrite length_insert in L2.
      split; [exact L1|]. split; [exact L2|]. split; [|split].
      * intros p Hp. rewrite P1 by lia.
        apply copyToArray_lookup_outside. lia.
      * intros j Hj. rewrite P2 by lia.
        apply list_lookup_insert_ne. lia.
      * intros j Hij Hjc.
        destruct (decide (j = i)) as [->|Hne].
        -- split.
           ++ intros k Hk Hlen. rewrite P1 by lia.
              apply copyToArray_lookup_inside; [simpl; lia | lia].
           ++ intros Hlen. rewrite P2 by lia.
              apply list_lookup_insert_eq. exact Hlen.
        -- destruct (P3 j ltac:(lia) Hjc) as [Q1 Q2]. split.
           ++ intros k Hk Hlen. apply Q1; [exact Hk|].
              rewrite copyToArray_length. exact Hlen.
           ++ intros Hlen. apply Q2. rewrite length_insert. exact Hlen.
    + intros [= <-]. apply js_lt_fin_false in E.
      repeat split; try reflexivity.
      all: intros; exfalso;
        assert (inject_Z (Z.of_nat i) <= inject_Z (Z.of_nat j))
          by (rewrite <- Zle_Qle; lia); lra.
Qed.

End LayoutLoopFacts.

(** The clamped instance count is a finite number between 1 and 10000. *)
Lemma clamp_count (countIn : num) :
  exists c, js_max (Fin 1) (js_min (Fin 10000) (js_or countIn (Fin 100))) = Fin c
            /\ 1 <= c /\ c <= 10000.
Proof.
  assert (K : forall q, exists c,
             js_max (Fin 1) (js_min (Fin 10000) (Fin q)) = Fin c /\ 1 <= c /\ c <= 10000).
  { intros q. unfold js_min.
    destruct (js_lt (Fin q) (Fin 10000)) eqn:E1.
    - apply js_lt_fin in E1. unfold js_max.
      destruct (js_lt (Fin 1) (Fin q)) eqn:E2.
      + apply js_lt_fin in E2. exists q. repeat split; lra.
      + exists 1. repeat split; lra.
    - exists 10000. split; [reflexivity|]. split; lra. }
  destruct countIn as [q| | |]; unfold js_or, truthy.
  - destruct (Qeq_bool q 0); [apply (K 100) | apply K].
  - exists 10000. split; [reflexivity|]. split; lra.
  - exists 1. split; [reflexivity|]. split; lra.
  - apply (K 100).
Qed.



Lemma Translation_lookup_ge (x y z : num) (k : nat) :
  (16 <= k)%nat -> Translation x y z !! k = None.
Proof. intros Hk. apply lookup_ge_None. simpl. lia. Qed.

(** What [instanceLayout] computes: it always returns, and instance [i],
    for [i] below the integer part of the count, has the matrix and the time
    offset written by turn [i] of the loop. *)
Lemma instanceLayout_spec (countIn spacingIn numFrames fps : num) :
  exists L c,
    instanceLayout countIn spacingIn numFrames fps = Some L
    /\ instanceCount L = Fin c
    /\ Fin c = js_max (Fin 1) (js_min (Fin 10000) (js_or countIn (Fin 100)))
    /\ 1 <= c /\ c <= 10000
    /\ gridSize L = of_Z (ceil_sqrt c)
    /\ spacing L = js_or spacingIn (Fin 3)
    /\ animDuration L = js_div numFrames fps
    /\ gridOffset L = js_div (js_mul (js_sub (gridSize L) (Fin 1)) (spacing L)) (Fin 2)
    /\ length (timeOffsets L) = Z.to_nat (Qfloor c)
    /\ forall i, (i < Z.to_nat (Qfloor c))%nat ->
         timeOffsets L !! i = Some (timeOffset_of (gridSize L) (animDuration L) i)
         /\ instanceMatrix L i
            = Translation (x_of (gridSize L) (spacing L) (gridOffset L) i) (Fin 0)
                          (z_of (gridSize L) (spacing L) (gridOffset L) i).
Proof.
  unfold instanceLayout.
  destruct (clamp_count countIn) as (c & Ec & Hc1 & Hc2). rewrite Ec.
  assert (Eg : js_ceil_sqrt (Fin c) = of_Z (ceil_sqrt c)).
  { unfold js_ceil_sqrt. destruct (Qcompare_spec c 0); try reflexivity. lra. }
  rewrite Eg.
  set (g := of_Z (ceil_sqrt c)). set (sp := js_or spacingIn (Fin 3)).
  set (d := js_div numFrames fps).
  set (go := js_div (js_mul (js_sub g (Fin 1)) sp) (Fin 2)).
  set (md0 := Float32Array (js_mul (Fin c) (Fin 16))).
  set (tos0 := Float32Array (Fin c)).
  assert (Hfuel : (Qceiling c - Z.of_nat 0 <= Z.of_nat (Z.to_nat 10000))%Z).
  { pose proof (Qceiling_resp_le c 10000 Hc2) as H.
    change (Qceiling 10000) with 10000%Z in H. rewrite Z2Nat.id by lia.
    change (Z.of_nat 0) with 0%Z. lia. }
  destruct (layout_loop_total c g sp d go _ 0 (md0, tos0) Hfuel) as ([md tos] & Eloop).
  rewrite Eloop.
  destruct (layout_loop_spec c g sp d go _ _ _ _ Eloop) as (L1 & L2 & _ & _ & P3).
  change (fst (?a, ?b)) with a in *. change (snd (?a, ?b)) with b in *.
  assert (Hlen_tos : length tos0 = Z.to_nat (Qfloor c)).
  { unfold tos0, Float32Array. apply length_replicate. }
  assert (Hlen_md : length md0 = Z.to_nat (Qfloor (c * 16))).
  { unfold md0, js_mul, fin, Float32Array. rewrite length_replicate.
    rewrite (Qfloor_comp _ _ (Qred_correct (c * 16))). reflexivity. }
  exists (mkLayout (Fin c) g sp d go md tos), c.
  cbn [instanceCount gridSize spacing animDuration gridOffset matricesData timeOffsets].
  repeat (split; [first [reflexivity | assumption | congruence]|]).
  intros i Hi.
  pose proof (Qfloor_le c) as Hfl.
  assert (Hi' : (Z.of_nat i + 1 <= Qfloor c)%Z) by lia.
  assert (Hic : inject_Z (Z.of_nat i + 1) <= c).
  { apply Qle_trans with (inject_Z (Qfloor c)); [|exact Hfl].
    rewrite <- Zle_Qle. exact Hi'. }
  rewrite inject_Z_plus in Hic. change (inject_Z 1) with 1 in Hic.
  destruct (P3 i ltac:(lia) ltac:(lra)) as [Q1 Q2]. split.
  - apply Q2. lia.
  - unfold instanceMatrix.
    cbn [matricesData].
    assert (Hroom : (i * 16 + 16 <= length md0)%nat).
    { rewrite Hlen_md.
      assert (H16 : inject_Z (Z.of_nat (i * 16 + 16)) <= c * 16).
      { rewrite Nat2Z.inj_add, Nat2Z.inj_mul, inject_Z_plus, inject_Z_mult.
        change (inject_Z (Z.of_nat 16)) with 16. lra. }
      assert (Hfloor : (Z.of_nat (i * 16 + 16) <= Qfloor (c * 16))%Z).
      { rewrite <- (Qfloor_Z (Z.of_nat (i * 16 + 16))).
        apply Qfloor_resp_le. exact H16. }
      lia. }
    apply list_eq. intros k.
    destruct (decide (k < 16)%nat) as [Hk|Hk].
    + rewrite lookup_take_lt by exact Hk. rewrite lookup_drop.
      apply Q1; [exact Hk | lia].
    + rewrite lookup_take_ge by lia.
      symmetry. apply Translation_lookup_ge. lia.
Qed.

(** The loop of the builder always ends within its bound. *)
Lemma instanceLayout_total (countIn spacingIn numFrames fps : num) :
  exists L, instanceLayout countIn spacingIn numFrames fps = Some L.
Proof.
  destruct (instanceLayout_spec countIn spacingIn numFrames fps) as (L & c & E & _).
  exists L. exact E.
Qed.

Example layout_of_one :
  instanceLayout (Fin 1) (Fin 3) (Fin 48) (Fin 24)
  = Some {| instanceCount := Fin 1; gridSize := Fin 1; spacing := Fin 3;
            animDuration := Fin 2; gridOffset := Fin 0;
            matricesData := Translation (Fin 0) (Fin 0) (Fin 0);
            timeOffsets := [NaN] |}.
Proof. vm_compute. reflexivity. Qed.

Example layout_of_four :
  instanceLayout (Fin 4) (Fin 3) (Fin 48) (Fin 24)
  = Some {| instanceCount := Fin 4; gridSize := Fin 2; spacing := Fin 3;
            animDuration := Fin 2; gridOffset := Fin (3 # 2);
            matricesData :=
              Translation (Fin (-3 # 2)) (Fin 0) (Fin (-3 # 2))
              ++ Translation (Fin (3 # 2)) (Fin 0) (Fin (-3 # 2))
              ++ Translation (Fin (-3 # 2)) (Fin 0) (Fin (3 # 2))
              ++ Translation (Fin (3 # 2)) (Fin 0) (Fin (3 # 2));
            timeOffsets := [Fin 0; Fin 1; Fin 1; Fin 2] |}.
Proof. vm_compute. reflexivity. Qed.








(** ** One instance *)

(** C3 (what the code does).  With a count of 1 the grid has side 1 and the
    single instance sits at the origin, but its time offset is computed as
    [(0 / 0) * animDuration]: it is NaN, whatever the spacing, the frame
    count and the rate; no guard sets it to 0. *)
Theorem single_instance_offset_is_nan (spacingIn : Q) (numFrames fps : num) :
  exists L,
    instanceLayout (Fin 1) (Fin spacingIn) numFrames fps = Some L
    /\ gridSize L = Fin 1
    /\ length (timeOffsets L) = 1%nat
    /\ instanceMatrix L 0 = Translation (Fin 0) (Fin 0) (Fin 0)
    /\ timeOffsets L = [NaN].
Proof.
  destruct (instanceLayout_spec (Fin 1) (Fin spacingIn) numFrames fps)
    as (L & c & E & _ & Ec & _ & _ & Eg & Es & _ & Eo & Elen & Hrec).
  vm_compute in Ec. injection Ec as ->.
  change (Z.to_nat (Qfloor 1)) with 1%nat in *.
  change (of_Z (ceil_sqrt 1)) with (Fin 1) in Eg.
  destruct (Hrec 0%nat ltac:(lia)) as [Ht Hm].
  exists L. split; [exact E|]. split; [exact Eg|]. split; [exact Elen|]. split.
  - rewrite Hm, Eo, Eg, Es. unfold js_or, truthy.
    assert (K : forall s : Q,
               x_of (Fin 1) (Fin s) (js_div (js_mul (js_sub (Fin 1) (Fin 1)) (Fin s)) (Fin 2)) 0
               = Fin 0).
    { intros s. unfold x_of, js_sub, js_neg, js_add, js_mul, js_div, fin.
      change (Qeq_bool 2 0) with false. cbv iota.
      change (col_of (Fin 1) 0) with (Fin 0). cbv iota.
      reflexivity. }
    assert (K' : forall s : Q,
               z_of (Fin 1) (Fin s) (js_div (js_mul (js_sub (Fin 1) (Fin 1)) (Fin s)) (Fin 2)) 0
               = Fin 0) by exact K.
    destruct (negb (Qeq_bool spacingIn 0)); rewrite K, K'; reflexivity.
  - destruct (timeOffsets L) as [|t [|t' l]]; try discriminate.
    rewrite Eg in Ht. cbn [lookup list_lookup] in Ht.
    injection Ht as ->. reflexivity.
Qed.

(** ** Instance records *)





(** ** The grid of 100 instances *)




(** ** The Unity material parser *)

Lemma js_round_nearest (q : Q) :
  exists k : Z, js_round (Fin q) = of_Z k
                /\ q - (1 # 2) < inject_Z k /\ inject_Z k <= q + (1 # 2).
Proof.
  exists (Qfloor (q + (1 # 2))). split; [reflexivity|].
  pose proof (Qfloor_le (q + (1 # 2))) as H1.
  pose proof (Qlt_floor (q + (1 # 2))) as H2.
  rewrite inject_Z_plus in H2. change (inject_Z 1) with 1 in H2.
  split; lra.
Qed.

Lemma triple_Some (x y z : option num) (v : num * num * num) :
  triple x y z = Some v
  <-> exists a b c, v = (a, b, c) /\ x = Some a /\ y = Some b /\ z = Some c.
Proof.
  split.
  - destruct x as [a|], y as [b|], z as [c|]; simpl; try discriminate.
    intros [= <-]. exists a, b, c. auto.
  - intros (a & b & c & -> & -> & -> & ->). reflexivity.
Qed.

Lemma triple_None (x y z : option num) :
  triple x y z = None <-> x = None \/ y = None \/ z = None.
Proof.
  destruct x, y, z; simpl; split; intros H; auto; try discriminate;
    destruct H as [H|[H|H]]; discriminate.
Qed.

(** C6.  [posMin] is in the result exactly when the three minimum
    components are extracted, and then it is that triple; likewise [posMax];
    so one missing component (say [_boundMaxZ]) leaves the bound out
    entirely.  [numFrames] is in the result exactly when [_frameCount] is
    extracted, and is [Math.round] of it: for a finite value the nearest
    integer. *)
Theorem parseUnityMaterial_fields (text : jsstring) :
  let m := parseUnityMaterial text in
  let f := fun name => extractFloat text (str name) in
  (forall v, m_posMin m = Some v
     <-> exists x y z, v = (x, y, z) /\ f "_boundMinX"%string = Some x
           /\ f "_boundMinY"%string = Some y /\ f "_boundMinZ"%string = Some z)
  /\ (forall v, m_posMax m = Some v
       <-> exists x y z, v = (x, y, z) /\ f "_boundMaxX"%string = Some x
             /\ f "_boundMaxY"%string = Some y /\ f "_boundMaxZ"%string = Some z)
  /\ (m_posMin m = None
       <-> f "_boundMinX"%string = None \/ f "_boundMinY"%string = None
           \/ f "_boundMinZ"%string = None)
  /\ (m_posMax m = None
       <-> f "_boundMaxX"%string = None \/ f "_boundMaxY"%string = None
           \/ f "_boundMaxZ"%string = None)
  /\ (m_numFrames m = None <-> f "_frameCount"%string = None)
  /\ (forall v, f "_frameCount"%string = Some v -> m_numFrames m = Some (js_round v))
  /\ (forall q, f "_frameCount"%string = Some (Fin q) ->
        exists k : Z, m_numFrames m = Some (of_Z k)
                      /\ q - (1 # 2) < inject_Z k /\ inject_Z k <= q + (1 # 2)).
Proof.
  intros m f. subst m f. unfold parseUnityMaterial.
  cbn [m_posMin m_posMax m_numFrames].
  split; [intros v; apply triple_Some|].
  split; [intros v; apply triple_Some|].
  split; [apply triple_None|].
  split; [apply triple_None|].
  split; [|split].
  - destruct (extractFloat text (str "_frameCount")); split; intros; congruence.
  - intros v ->. reflexivity.
  - intros q ->. destruct (js_round_nearest q) as (k & -> & Hk). exists k. auto.
Qed.

Example parse_sample_mat :
  parseUnityMaterial sample_mat
  = {| m_numFrames := Some (Fin 48);
       m_fps := Some (Fin 24);
       m_posMin := Some (Fin (-3 # 2), Fin (-2), Fin (-1 # 4));
       m_posMax := Some (Fin (3 # 2), Fin 2, Fin (3 # 10));
       m_packed := None |}.
Proof. vm_compute. reflexivity. Qed.

Example parse_sample_mat_no_maxZ :
  parseUnityMaterial sample_mat_no_maxZ
  = {| m_numFrames := Some (Fin 48);
       m_fps := Some (Fin 24);
       m_posMin := Some (Fin (-3 # 2), Fin (-2), Fin (-1 # 4));
       m_posMax := None;
       m_packed := None |}.
Proof. vm_compute. reflexivity. Qed.

(** ** The pattern of [extractFloat] *)

Lemma canon_fixed (c x : N) :
  canon c = x -> (x < 65 \/ 90 < x)%N -> c = x.
Proof.
  unfold canon. intros H Hx.
  destruct ((97 <=? c)%N && (c <=? 122)%N) eqn:E; [|exact H].
  apply andb_true_iff in E. destruct E as [E1 E2].
  apply N.leb_le in E1, E2. lia.
Qed.

Lemma is_space_mid (c : N) : (33 <= c <= 159)%N -> is_space c = false.
Proof.
  intros Hc. unfold is_space.
  rewrite (proj2 (N.leb_gt c 13)) by lia.
  rewrite (proj2 (N.leb_gt 8192 c)) by lia.
  repeat match goal with
         | |- context [(c =? ?k)%N] => rewrite (proj2 (N.eqb_neq c k)) by lia
         end.
  rewrite andb_false_r. reflexivity.
Qed.

Lemma canon_cases (c : N) :
  ((97 <= c <= 122)%N /\ canon c = (c - 32)%N)
  \/ (~ (97 <= c <= 122)%N /\ canon c = c).
Proof.
  unfold canon.
  destruct (N.leb_spec 97 c); destruct (N.leb_spec c 122); simpl;
    [left | right | right | right]; split; auto; lia.
Qed.

Lemma canon_space (a b : N) :
  canon a = canon b -> is_space a = is_space b.
Proof.
  intros H.
  destruct (canon_cases a) as [[Ha Ea]|[Ha Ea]];
    destruct (canon_cases b) as [[Hb Eb]|[Hb Eb]]; rewrite Ea, Eb in H.
  - f_equal. lia.
  - rewrite (is_space_mid a), (is_space_mid b) by lia. reflexivity.
  - rewrite (is_space_mid a), (is_space_mid b) by lia. reflexivity.
  - f_equal. exact H.
Qed.

Lemma num_class_range (c : N) : num_class c = true -> (45 <= c <= 101)%N.
Proof.
  unfold num_class, is_digit. intros H.
  destruct (canon_cases c) as [[Hc Ec]|[Hc Ec]]; rewrite Ec in H;
    repeat match type of H with
           | context [(?a <=? ?b)%N] => destruct (N.leb_spec a b)
           | context [(?a =? ?b)%N] => destruct (N.eqb_spec a b)
           end; simpl in H; try discriminate; lia.
Qed.

Lemma num_class_not_space (c : N) : num_class c = true -> is_space c = false.
Proof.
  intros H. apply num_class_range in H. apply is_space_mid. lia.
Qed.

Lemma span_spec (f : N -> bool) (s : jsstring) :
  s = fst (span f s) ++ snd (span f s)
  /\ forallb f (fst (span f s)) = true
  /\ match snd (span f s) with c :: _ => f c = false | [] => True end.
Proof.
  induction s as [|c s IH]; simpl.
  - auto.
  - destruct (f c) eqn:E.
    + destruct (span f s) as [p r]. simpl in *. destruct IH as (-> & Hp & Hr).
      rewrite E. repeat split; auto.
    + simpl. auto.
Qed.

Lemma span_app (f : N -> bool) (p r : jsstring) :
  forallb f p = true ->
  match r with c :: _ => f c = false | [] => True end ->
  span f (p ++ r) = (p, r).
Proof.
  intros Hp Hr. induction p as [|c p IH]; simpl in *.
  - destruct r as [|c r]; [reflexivity|]. simpl. rewrite Hr. reflexivity.
  - apply andb_true_iff in Hp. destruct Hp as [Hc Hp].
    rewrite Hc, (IH Hp). reflexivity.
Qed.

Lemma re_lit_sound (p s s' : jsstring) :
  re_lit p s = Some s' -> exists nm, s = nm ++ s' /\ map canon nm = map canon p.
Proof.
  revert s. induction p as [|a p IH]; intros s; simpl.
  - intros [= ->]. exists []. auto.
  - destruct s as [|c s]; [discriminate|].
    unfold ci_eq. destruct (N.eqb_spec (canon a) (canon c)) as [E|E]; [|discriminate].
    intros H. destruct (IH _ H) as (nm & -> & Hnm).
    exists (c :: nm). simpl. split; [reflexivity|]. congruence.
Qed.

Lemma re_lit_complete (p nm s' : jsstring) :
  map canon nm = map canon p -> re_lit p (nm ++ s') = Some s'.
Proof.
  revert nm. induction p as [|a p IH]; intros nm H.
  - destruct nm; [reflexivity | discriminate].
  - destruct nm as [|c nm]; [discriminate|]. simpl in *.
    injection H as Hc Hnm. unfold ci_eq. rewrite Hc, N.eqb_refl. auto.
Qed.

Lemma re_spaces_sound {A} (k : jsstring -> option A) (s : jsstring) (r : A) :
  re_spaces k s = Some r ->
  exists w rest, s = w ++ rest /\ forallb is_space w = true /\ k rest = Some r.
Proof.
  induction s as [|c s IH]; simpl.
  - intros H. exists [], []. auto.
  - destruct (is_space c) eqn:E.
    + destruct (re_spaces k s) as [r'|] eqn:E'.
      * intros [= ->]. destruct (IH eq_refl) as (w & rest & -> & Hw & Hk).
        exists (c :: w), rest. simpl. rewrite E, Hw. auto.
      * intros H. exists [], (c :: s). auto.
    + intros H. exists [], (c :: s). auto.
Qed.

Lemma re_spaces_complete {A} (k : jsstring -> option A) (w rest : jsstring) (r : A) :
  forallb is_space w = true ->
  match rest with c :: _ => is_space c = false | [] => True end ->
  k rest = Some r ->
  re_spaces k (w ++ rest) = Some r.
Proof.
  intros Hw Hrest Hk. induction w as [|c w IH]; simpl in *.
  - destruct rest as [|c rest]; [exact Hk|]. simpl. rewrite Hrest. exact Hk.
  - apply andb_true_iff in Hw. destruct Hw as [Hc Hw].
    rewrite Hc, (IH Hw). reflexivity.
Qed.

Lemma re_capture_sound (s cap : jsstring) :
  re_capture s = Some cap ->
  exists rest, s = cap ++ rest /\ cap <> [] /\ forallb num_class cap = true
               /\ match rest with c :: _ => num_class c = false | [] => True end.
Proof.
  unfold re_capture. pose proof (span_spec num_class s) as H.
  destruct (span num_class s) as [p r]. simpl in H. destruct H as (-> & Hp & Hr).
  destruct p as [|c p]; simpl; [discriminate|].
  intros [= <-]. exists r. repeat split; auto; discriminate.
Qed.

Lemma re_capture_complete (cap rest : jsstring) :
  cap <> [] -> forallb num_class cap = true ->
  match rest with c :: _ => num_class c = false | [] => True end ->
  re_capture (cap ++ rest) = Some cap.
Proof.
  intros Hne Hc Hr. unfold re_capture. rewrite (span_app _ _ _ Hc Hr).
  destruct cap; [contradiction | reflexivity].
Qed.

Lemma re_lit_char (x : N) (s s' : jsstring) :
  (x < 65 \/ 90 < x)%N -> canon x = x ->
  re_lit [x] s = Some s' -> s = x :: s'.
Proof.
  intros Hx Hcx H. apply re_lit_sound in H. destruct H as (nm & -> & Hnm).
  destruct nm as [|c [|c' nm]]; try discriminate.
  simpl in Hnm. injection Hnm as Hc. rewrite Hcx in Hc.
  apply canon_fixed in Hc; [|exact Hx]. subst c. reflexivity.
Qed.

Lemma match_at_sound (name s cap : jsstring) :
  match_at name s = Some cap -> shape_at name s cap.
Proof.
  unfold match_at, shape_at.
  destruct (re_lit (str "-") s) as [s1|] eqn:E1; [|discriminate].
  apply (re_lit_char 45) in E1; [|lia|reflexivity]. subst s.
  intros H. apply re_spaces_sound in H. destruct H as (w1 & s2 & -> & Hw1 & H).
  destruct (re_lit name s2) as [s3|] eqn:E2; [|discriminate].
  apply re_lit_sound in E2. destruct E2 as (nm & -> & Hnm).
  destruct (re_lit (str ":") s3) as [s4|] eqn:E3; [|discriminate].
  apply (re_lit_char 58) in E3; [|lia|reflexivity]. subst s3.
  apply re_spaces_sound in H. destruct H as (w2 & s5 & -> & Hw2 & H).
  apply re_capture_sound in H. destruct H as (rest & -> & Hne & Hcap & Hrest).
  exists w1, nm, w2, rest. repeat split; auto.
Qed.

Lemma match_at_complete (name s cap : jsstring) :
  name_ok name -> shape_at name s cap -> match_at name s = Some cap.
Proof.
  intros Hname (w1 & nm & w2 & rest & -> & Hw1 & Hnm & Hw2 & Hne & Hcap & Hrest).
  unfold match_at. change (str "-" ++ ?t) with (45%N :: t).
  change (re_lit (str "-") (45%N :: ?t)) with (Some t). cbv iota.
  apply re_spaces_complete; [exact Hw1 | |].
  - destruct nm as [|c nm]; simpl.
    + reflexivity.
    + destruct name as [|a name]; [discriminate|].
      simpl in Hnm, Hname. injection Hnm as Hc _.
      rewrite (canon_space _ _ Hc). exact Hname.
  - rewrite (re_lit_complete name nm _ Hnm).
    change (str ":" ++ ?t) with (58%N :: t).
    change (re_lit (str ":") (58%N :: ?t)) with (Some t). cbv iota.
    apply re_spaces_complete; [exact Hw2 | |].
    + destruct cap as [|c cap]; [contradiction|]. simpl in *.
      apply andb_true_iff in Hcap. destruct Hcap as [Hc _].
      apply num_class_not_space. exact Hc.
    + apply re_capture_complete; assumption.
Qed.


(** The matcher returns the number run of the leftmost occurrence. *)
Lemma text_match_leftmost (name pre s cap : jsstring) :
  name_ok name ->
  shape_at name s cap ->
  (forall pre' s' cap', pre ++ s = pre' ++ s' ->
     (length pre' < length pre)%nat -> ~ shape_at name s' cap') ->
  text_match name (pre ++ s) = Some cap.
Proof.
  intros Hname Hshape. induction pre as [|c pre IH]; intros Hfirst.
  - change ([] ++ s) with s. destruct s; cbn [text_match];
      rewrite (match_at_complete _ _ _ Hname Hshape); reflexivity.
  - change ((c :: pre) ++ s) with (c :: (pre ++ s)) in *. cbn [text_match].
    destruct (match_at name (c :: pre ++ s)) as [cap'|] eqn:E.
    + exfalso. apply (Hfirst [] (c :: pre ++ s) cap' eq_refl); [simpl; lia|].
      apply match_at_sound. exact E.
    + apply IH. intros pre' s' cap' Hs Hlen.
      apply (Hfirst (c :: pre') s' cap'); [simpl; congruence | simpl; lia].
Qed.

(** ** [parseFloat] on a number run *)

Lemma is_digit_range (c : N) : is_digit c = true <-> (48 <= c <= 57)%N.
Proof.
  unfold is_digit. rewrite andb_true_iff, !N.leb_le. reflexivity.
Qed.

Lemma not_digit (c : N) : (c < 48 \/ 57 < c)%N -> is_digit c = false.
Proof.
  intros H. destruct (is_digit c) eqn:E; [|reflexivity].
  apply is_digit_range in E. lia.
Qed.







Lemma trim_start_id (c : N) (s : jsstring) :
  is_space c = false -> trim_start (c :: s) = c :: s.
Proof. intros H. unfold trim_start. simpl. rewrite H. reflexivity. Qed.



(** ** Extraction of a vendor field *)

Lemma vendorFields_ok (name : jsstring) : In name vendorFields -> name_ok name.
Proof.
  intros H. simpl in H.
  repeat (destruct H as [<-|H]; [reflexivity|]). contradiction.
Qed.




(** ** Activation *)

(** C8.  When the selected mesh has no UV2 channel, [applyVat] only writes a
    validation message to the status (the UV2 message as soon as a position
    texture is loaded): no material is created or assigned, and the playback
    time, the playing flag, the current mesh and every other variable are
    left as they were. *)
Theorem applyVat_without_UV2 (s : State) (idx : nat) (mesh : Mesh) :
  find_mesh (Number (meshSelect (controls s))) (meshes s) = Some (idx, mesh) ->
  hasUV2 mesh = false ->
  exists msg,
    applyVat s = setStatus msg s
    /\ is_validation_failure msg = true
    /\ (positionTexture s <> None -> msg = MeshHasNoUV2)
    /\ materials (applyVat s) = materials s
    /\ vatMaterial (applyVat s) = vatMaterial s
    /\ vatMaterialInstanced (applyVat s) = vatMaterialInstanced s
    /\ meshes (applyVat s) = meshes s
    /\ originalMaterials (applyVat s) = originalMaterials s
    /\ vatTime (applyVat s) = vatTime s
    /\ isPlaying (applyVat s) = isPlaying s
    /\ currentVatMesh (applyVat s) = currentVatMesh s
    /\ isInstancedMode (applyVat s) = isInstancedMode s
    /\ sceneAnimating (applyVat s) = sceneAnimating s.
Proof.
  intros Hfind Huv. unfold applyVat.
  destruct (positionTexture s) as [tex|] eqn:Etex.
  - rewrite Hfind, Huv. cbn [negb].
    exists MeshHasNoUV2. repeat split; reflexivity.
  - exists LoadPositionTextureFirst. repeat split; try reflexivity.
    intros H. contradiction.
Qed.

Lemma applyVat_without_UV2_witness :
  exists msg,
    applyVat (demo_state false true true "48" "1") = setStatus msg (demo_state false true true "48" "1")
    /\ msg = MeshHasNoUV2
    /\ vatTime (applyVat (demo_state false true true "48" "1")) = Fin (3 # 2)
    /\ isPlaying (applyVat (demo_state false true true "48" "1")) = true.
Proof.
  destruct (applyVat_without_UV2 (demo_state false true true "48" "1") 0 (demo_mesh false))
    as (msg & E & _ & Hmsg & _ & _ & _ & _ & _ & Ht & Hp & _).
  - vm_compute. reflexivity.
  - reflexivity.
  - exists msg. split; [exact E|]. split; [apply Hmsg; discriminate|].
    split; [exact Ht | exact Hp].
Defined.

Lemma on_material_length (f : ShaderMaterial -> ShaderMaterial) (r : option nat)
    (ms : list ShaderMaterial) :
  length (on_material f r ms) = length ms.
Proof. destruct r; simpl; [apply length_alter | reflexivity]. Qed.

Lemma on_material_lookup (f : ShaderMaterial -> ShaderMaterial) (r : option nat)
    (ms : list ShaderMaterial) (i : nat) (m : ShaderMaterial) :
  ms !! i = Some m ->
  on_material f r ms !! i = Some m \/ on_material f r ms !! i = Some (f m).
Proof.
  intros H. destruct r as [j|]; simpl; [|auto].
  rewrite list_lookup_alter. destruct (decide (j = i)) as [->|_]; [|auto].
  rewrite H. auto.
Qed.





(** ** The playback clock *)


Example speed_texts_are_falsy :
  truthy (Number (str "")) = false
  /\ truthy (Number (str "0")) = false
  /\ truthy (Number (str "fast")) = false
  /\ Number (str "") = Fin 0
  /\ Number (str "fast") = NaN.
Proof. vm_compute. auto. Qed.

(** Paused, a render tick changes nothing; pausing and resetting do what the
    buttons say. *)
Lemma renderTick_paused (s : State) (deltaTime : num) :
  isPlaying s = false -> renderTick deltaTime s = s.
Proof. intros H. unfold renderTick. rewrite H. reflexivity. Qed.

Lemma transport_buttons (s : State) :
  isPlaying (playClick s) = true /\ vatTime (playClick s) = vatTime s
  /\ isPlaying (pauseClick s) = false /\ vatTime (pauseClick s) = vatTime s
  /\ isPlaying (resetClick s) = isPlaying s /\ vatTime (resetClick s) = Fin 0.
Proof. repeat split. Qed.



(* ================================================================== *)
(** * Further properties *)

(** ** Frames over time *)












(** ** Texel addressing *)





(** ** More on the instance layout *)

Lemma clamp_fin (q : Q) :
  exists c, js_max (Fin 1) (js_min (Fin 10000) (Fin q)) = Fin c
            /\ (1 <= q -> q <= 10000 -> c == q)
            /\ (q < 1 -> c == 1)
            /\ (10000 < q -> c == 10000).
Proof.
  unfold js_min. destruct (js_lt (Fin q) (Fin 10000)) eqn:E1.
  - apply js_lt_fin in E1. unfold js_max.
    destruct (js_lt (Fin 1) (Fin q)) eqn:E2.
    + apply js_lt_fin in E2. exists q. repeat split; intros; lra.
    + apply js_lt_fin_false in E2. exists 1. repeat split; intros; lra.
  - apply js_lt_fin_false in E1. exists 10000.
    split; [reflexivity|]. repeat split; intros; lra.
Qed.

Lemma Fin_inj (a b : Q) : Fin a = Fin b -> a = b.
Proof. intros [= H]. exact H. Qed.

(** X6.  The instance count is clamped, never rejected: the layout is built
    for a count between 1 and 10000, which is the requested count when that
    lies in the range, 100 when the field reads as 0 or NaN, 1 when it is
    below 1, and 10000 when it is above. *)
Theorem instanceCount_clamped (countIn spacingIn numFrames fps : num) :
  exists L c,
    instanceLayout countIn spacingIn numFrames fps = Some L
    /\ instanceCount L = Fin c
    /\ 1 <= c /\ c <= 10000
    /\ (forall q, countIn = Fin q -> 1 <= q -> q <= 10000 -> c == q)
    /\ (truthy countIn = false -> c == 100)
    /\ (forall q, countIn = Fin q -> q < 1 -> ~ q == 0 -> c == 1)
    /\ (countIn = NInf -> c == 1)
    /\ (forall q, countIn = Fin q -> 10000 < q -> c == 10000)
    /\ (countIn = PInf -> c == 10000).
Proof.
  destruct (instanceLayout_spec countIn spacingIn numFrames fps)
    as (L & c & E & Ec & Eclamp & Hc1 & Hc2 & _).
  exists L, c. split; [exact E|]. split; [exact Ec|].
  split; [exact Hc1|]. split; [exact Hc2|].
  assert (Ktruthy : forall q, ~ q == 0 -> js_or (Fin q) (Fin 100) = Fin q).
  { intros q Hq. unfold js_or, truthy.
    rewrite (proj2 (Qeq_bool_false_iff q) Hq). reflexivity. }
  split; [|split; [|split; [|split; [|split]]]].
  - intros q -> H1 H2. rewrite Ktruthy in Eclamp by lra.
    destruct (clamp_fin q) as (c' & Ec' & K & _). rewrite Ec' in Eclamp.
    apply Fin_inj in Eclamp. subst c'. auto.
  - intros Hf. unfold js_or in Eclamp. rewrite Hf in Eclamp.
    apply Fin_inj in Eclamp. subst c. reflexivity.
  - intros q -> H1 H0. rewrite Ktruthy in Eclamp by exact H0.
    destruct (clamp_fin q) as (c' & Ec' & _ & K & _). rewrite Ec' in Eclamp.
    apply Fin_inj in Eclamp. subst c'. auto.
  - intros ->. apply Fin_inj in Eclamp. subst c. reflexivity.
  - intros q -> H1. rewrite Ktruthy in Eclamp by lra.
    destruct (clamp_fin q) as (c' & Ec' & _ & _ & K). rewrite Ec' in Eclamp.
    apply Fin_inj in Eclamp. subst c'. auto.
  - intros ->. apply Fin_inj in Eclamp. subst c. reflexivity.
Qed.

Lemma instanceCount_bounds_helper (n : Z) :
  (1 <= n <= 10000)%Z -> 1 <= inject_Z n /\ inject_Z n <= 10000.
Proof.
  intros [H1 H2]. split.
  - change 1 with (inject_Z 1). rewrite <- Zle_Qle. exact H1.
  - change 10000 with (inject_Z 10000). rewrite <- Zle_Qle. exact H2.
Qed.

(** The sizes of the two buffers. *)
Lemma instanceLayout_lengths (countIn spacingIn numFrames fps : num) (L : Layout) (c : Q) :
  instanceLayout countIn spacingIn numFrames fps = Some L ->
  instanceCount L = Fin c ->
  length (timeOffsets L) = Z.to_nat (Qfloor c)
  /\ length (matricesData L) = Z.to_nat (Qfloor (c * 16)).
Proof.
  unfold instanceLayout.
  destruct (clamp_count countIn) as (c' & Ec & _). rewrite Ec.
  match goal with
  | |- context [layout_loop ?a ?g ?sp ?d ?go ?fuel ?i ?bufs] =>
      destruct (layout_loop a g sp d go fuel i bufs) as [[md tos]|] eqn:Eloop
  end; [|discriminate].
  intros [= <-]. cbn [instanceCount timeOffsets matricesData].
  intros [= <-].
  destruct (layout_loop_spec _ _ _ _ _ _ _ _ _ Eloop) as (L1 & L2 & _).
  cbn [fst snd] in L1, L2. rewrite L1, L2.
  unfold Float32Array, js_mul, fin. rewrite !length_replicate.
  rewrite (Qfloor_comp _ _ (Qred_correct (c' * 16))). auto.
Qed.

(** X7.  For a whole count [n] between 1 and 10000 the builder fills
    exactly [n] time offsets and [16 n] matrix entries, one full matrix per
    instance. *)
Theorem layout_sizes (n : Z) (spacingIn numFrames fps : num) :
  (1 <= n <= 10000)%Z ->
  exists L,
    instanceLayout (of_Z n) spacingIn numFrames fps = Some L
    /\ num_eq (instanceCount L) (of_Z n)
    /\ length (timeOffsets L) = Z.to_nat n
    /\ length (matricesData L) = (16 * Z.to_nat n)%nat
    /\ forall i, (i < Z.to_nat n)%nat ->
         is_Some (timeOffsets L !! i) /\ length (instanceMatrix L i) = 16%nat.
Proof.
  intros Hn.
  destruct (instanceCount_bounds_helper n Hn) as [Hq1 Hq2].
  destruct (instanceLayout_spec (of_Z n) spacingIn numFrames fps)
    as (L & c & E & Ec & Eclamp & _ & _ & _ & _ & _ & _ & _ & Hrec).
  assert (Hcn : c == inject_Z n).
  { unfold of_Z, js_or, truthy in Eclamp.
    rewrite (proj2 (Qeq_bool_false_iff (inject_Z n))) in Eclamp by lra.
    cbn [negb] in Eclamp.
    destruct (clamp_fin (inject_Z n)) as (c' & Ec' & K & _). rewrite Ec' in Eclamp.
    apply Fin_inj in Eclamp. subst c'. auto. }
  destruct (instanceLayout_lengths _ _ _ _ L c E Ec) as [Lt Lm].
  assert (F1 : Qfloor c = n) by (rewrite (Qfloor_comp _ _ Hcn); apply Qfloor_Z).
  assert (F16 : Qfloor (c * 16) = (n * 16)%Z).
  { assert (H : c * 16 == inject_Z (n * 16)).
    { rewrite inject_Z_mult, Hcn. reflexivity. }
    rewrite (Qfloor_comp _ _ H). apply Qfloor_Z. }
  rewrite F1 in Lt, Hrec. rewrite F16 in Lm.
  exists L. split; [exact E|]. split; [rewrite Ec; exact Hcn|].
  split; [exact Lt|]. split; [lia|].
  intros i Hi. destruct (Hrec i Hi) as [Ht Hm]. split.
  - rewrite Ht. eauto.
  - rewrite Hm. reflexivity.
Qed.

Lemma layout_sizes_witness :
  exists L,
    instanceLayout (of_Z 9) (Fin 2) (Fin 48) (Fin 24) = Some L
    /\ num_eq (instanceCount L) (of_Z 9)
    /\ length (timeOffsets L) = Z.to_nat 9
    /\ length (matricesData L) = (16 * Z.to_nat 9)%nat
    /\ forall i, (i < Z.to_nat 9)%nat ->
         is_Some (timeOffsets L !! i) /\ length (instanceMatrix L i) = 16%nat.
Proof. apply (layout_sizes 9 (Fin 2) (Fin 48) (Fin 24)). lia. Defined.








(** ** The phase wave *)




(** ** Reading back a written material file *)
















(** ** Which parser a metadata file goes to *)

Lemma is_prefix_app (p s : jsstring) : is_prefix p (p ++ s) = true.
Proof. induction p as [|a p IH]; simpl; [reflexivity|]. rewrite N.eqb_refl. exact IH. Qed.

Lemma includes_app (needle pre post : jsstring) :
  includes needle (pre ++ needle ++ post) = true.
Proof.
  induction pre as [|c pre IH].
  - simpl. destruct (needle ++ post) eqn:E; cbn [includes];
      rewrite <- E, is_prefix_app; reflexivity.
  - change ((c :: pre) ++ needle ++ post) with (c :: (pre ++ needle ++ post)).
    cbn [includes]. rewrite IH. apply orb_true_r.
Qed.

Lemma is_prefix_head (a : N) (p text : jsstring) :
  is_prefix (a :: p) text = true -> In a text.
Proof.
  destruct text as [|c text]; simpl; [discriminate|].
  intros H. apply andb_true_iff in H. destruct H as [H _].
  apply N.eqb_eq in H. auto.
Qed.

Lemma includes_head (a : N) (p text : jsstring) :
  includes (a :: p) text = true -> In a text.
Proof.
  induction text as [|c text IH]; cbn [includes].
  - rewrite orb_false_r. apply is_prefix_head.
  - intros H. apply orb_true_iff in H. destruct H as [H|H].
    + eapply is_prefix_head. exact H.
    + right. apply IH. exact H.
Qed.

Lemma includes_char (needle text : jsstring) (c : N) :
  In c needle -> includes needle text = true -> In c text.
Proof.
  revert text. induction needle as [|a needle IH]; intros text Hc H; [contradiction|].
  destruct Hc as [->|Hc]; [eapply includes_head; exact H|].
  assert (K : forall t, is_prefix (a :: needle) t = true ->
                        exists t', t = a :: t' /\ is_prefix needle t' = true).
  { intros [|x t]; simpl; [discriminate|]. intros Hp.
    apply andb_true_iff in Hp. destruct Hp as [Hx Hp]. apply N.eqb_eq in Hx.
    subst x. eauto. }
  induction text as [|x text IHt]; cbn [includes] in H.
  - rewrite orb_false_r in H. discriminate.
  - apply orb_true_iff in H. destruct H as [H|H].
    + destruct (K _ H) as (t' & Et & Hp). injection Et as -> ->.
      right. apply (IH t' Hc).
      destruct t'; cbn [includes]; rewrite Hp; reflexivity.
    + right. apply IHt. exact H.
Qed.

(** X13.  A metadata text goes to the Unity parser as soon as it contains
    [%YAML], [_boundMinX:] or [_frameCount:] written exactly so.  The test is
    case-sensitive, unlike the extraction: a text with no [%], no capital X
    and no capital C is never sent to the Unity parser, whatever fields it
    holds. *)
Theorem isUnityMaterial_detection (text : jsstring) :
  (forall pre post needle,
     In needle [str "%YAML"; str "_boundMinX:"; str "_frameCount:"] ->
     text = pre ++ needle ++ post -> isUnityMaterial text = true)
  /\ (~ In 37%N text -> ~ In 88%N text -> ~ In 67%N text -> isUnityMaterial text = false).
Proof.
  split.
  - intros pre post needle Hn ->. unfold isUnityMaterial.
    destruct Hn as [<-|[<-|[<-|[]]]]; rewrite includes_app;
      rewrite ?orb_true_r; reflexivity.
  - intros H1 H2 H3. unfold isUnityMaterial.
    destruct (includes (str "%YAML") text) eqn:E1.
    { exfalso. apply H1. apply (includes_char _ _ 37%N) in E1; [exact E1 | simpl; auto]. }
    destruct (includes (str "_boundMinX:") text) eqn:E2.
    { exfalso. apply H2. apply (includes_char _ _ 88%N) in E2; [exact E2 | simpl; auto 12]. }
    destruct (includes (str "_frameCount:") text) eqn:E3.
    { exfalso. apply H3. apply (includes_char _ _ 67%N) in E3; [exact E3 | simpl; auto 12]. }
    reflexivity.
Qed.

Example lower_case_file_is_extracted_but_not_detected :
  extractFloat (str "- _framecount: 48") (str "_frameCount") = Some (Fin 48)
  /\ isUnityMaterial (str "- _framecount: 48") = false.
Proof. vm_compute. auto. Qed.

(** ** A field that is there but is not a number *)

Lemma read_unsigned_no_digit (s : jsstring) :
  forallb (fun c => negb (is_digit c) && negb (c =? 73)%N) s = true ->
  read_unsigned s = None.
Proof.
  intros H.
  assert (Hspan : forall t, forallb (fun c => negb (is_digit c) && negb (c =? 73)%N) t = true ->
                            span is_digit t = ([], t)).
  { intros [|c t]; [reflexivity|]. simpl. intros Ht.
    apply andb_true_iff in Ht. destruct Ht as [Hc _].
    apply andb_true_iff in Hc. destruct Hc as [Hc _].
    apply negb_true_iff in Hc. rewrite Hc. reflexivity. }
  unfold read_unsigned.
  assert (Hinf : starts_with (str "Infinity") s = None).
  { unfold starts_with.
    destruct (decide (take (length (str "Infinity")) s = str "Infinity")) as [E|E];
      [|reflexivity].
    exfalso. destruct s as [|c s]; [vm_compute in E; discriminate|].
    simpl in H. apply andb_true_iff in H. destruct H as [Hc _].
    apply andb_true_iff in Hc. destruct Hc as [_ Hc].
    apply negb_true_iff, N.eqb_neq in Hc.
    vm_compute in E. injection E as E _. congruence. }
  rewrite Hinf, (Hspan s H).
  destruct s as [|c s]; [reflexivity|].
  simpl in H. apply andb_true_iff in H. destruct H as [_ Hs].
  destruct (c =? 46)%N; [rewrite (Hspan s Hs)|]; reflexivity.
Qed.

Lemma parseFloat_no_digit (cap : jsstring) :
  forallb num_class cap = true ->
  forallb (fun c => negb (is_digit c)) cap = true ->
  parseFloat cap = NaN.
Proof.
  intros Hcls Hnd.
  assert (Hall : forallb (fun c => negb (is_digit c) && negb (c =? 73)%N) cap = true).
  { rewrite forallb_forall in *. intros c Hc.
    rewrite (Hnd c Hc). specialize (Hcls c Hc).
    rewrite (proj2 (N.eqb_neq c 73)); [reflexivity|].
    intros ->. vm_compute in Hcls. discriminate. }
  unfold parseFloat. destruct cap as [|c cap]; [reflexivity|].
  simpl in Hcls. apply andb_true_iff in Hcls. destruct Hcls as [Hc _].
  rewrite trim_start_id by (apply num_class_not_space; exact Hc).
  unfold read_decimal, read_sign.
  simpl in Hall. apply andb_true_iff in Hall. destruct Hall as [Hc' Hrest].
  destruct (c =? 43)%N eqn:E43.
  - apply N.eqb_eq in E43. subst c. discriminate.
  - destruct (c =? 45)%N eqn:E45.
    + rewrite (read_unsigned_no_digit cap Hrest). reflexivity.
    + rewrite (read_unsigned_no_digit (c :: cap)); [reflexivity|].
      simpl. rewrite Hc', Hrest. reflexivity.
Qed.

(** X14.  A field whose value has no digit (a lone dash, a dot, the letter
    e) is not omitted: it is extracted as NaN, and a frame count of that kind
    gives [numFrames = NaN] in the parsed metadata. *)
Theorem digitless_field_is_NaN (name text pre s cap : jsstring) :
  In name vendorFields ->
  text = pre ++ s -> shape_at name s cap ->
  forallb (fun c => negb (is_digit c)) cap = true ->
  (forall pre' s' cap', text = pre' ++ s' ->
     (length pre' < length pre)%nat -> ~ shape_at name s' cap') ->
  extractFloat text name = Some NaN
  /\ (name = str "_frameCount" -> m_numFrames (parseUnityMaterial text) = Some NaN).
Proof.
  intros Hin -> Hshape Hnd Hfirst.
  assert (E : extractFloat (pre ++ s) name = Some NaN).
  { unfold extractFloat.
    rewrite (text_match_leftmost name pre s cap (vendorFields_ok _ Hin) Hshape Hfirst).
    destruct Hshape as (w1 & nm & w2 & rest & _ & _ & _ & _ & _ & Hcls & _).
    rewrite (parseFloat_no_digit cap Hcls Hnd). reflexivity. }
  split; [exact E|].
  intros ->. unfold parseUnityMaterial. cbn [m_numFrames]. rewrite E. reflexivity.
Qed.

Lemma digitless_field_is_NaN_witness :
  extractFloat (str "- _frameCount: -") (str "_frameCount") = Some NaN
  /\ m_numFrames (parseUnityMaterial (str "- _frameCount: -")) = Some NaN.
Proof.
  destruct (digitless_field_is_NaN (str "_frameCount") (str "- _frameCount: -") []
              (str "- _frameCount: -") (str "-")) as [H1 H2].
  - simpl. auto 12.
  - reflexivity.
  - exists (str " "), (str "_frameCount"), (str " "), []. repeat split; discriminate.
  - reflexivity.
  - intros pre' s' cap' _ Hlen. simpl in Hlen. lia.
  - split; [exact H1 | apply H2; reflexivity].
Defined.

(** ** Packed or HDR *)






(** ** What the listeners write *)

(** [applyInstancing (true)] when its guard passes. *)
Lemma applyInstancing_true_state (s : State) (cur vat : nat) (tex : Texture) :
  currentVatMesh s = Some cur -> vatMaterial s = Some vat -> positionTexture s = Some tex ->
  exists L,
    panel_layout s = Some L
    /\ materials (applyInstancing true s)
       = on_material dispose (vatMaterialInstanced s) (materials s)
         ++ [new_material true s tex (vatTime s) None]
    /\ vatMaterialInstanced (applyInstancing true s) = Some (length (materials s))
    /\ meshes (applyInstancing true s)
       = alter (with_instances (length (materials s)) L) cur (meshes s)
    /\ isInstancedMode (applyInstancing true s) = true
    /\ status (applyInstancing true s)
       = InstancingEnabled (instanceCount L) (gridSize L) (spacing L) (animDuration L)
    /\ vatMaterial (applyInstancing true s) = vatMaterial s
    /\ vatTime (applyInstancing true s) = vatTime s
    /\ isPlaying (applyInstancing true s) = isPlaying s
    /\ controls (applyInstancing true s) = controls s
    /\ currentVatMesh (applyInstancing true s) = currentVatMesh s
    /\ positionTexture (applyInstancing true s) = positionTexture s
    /\ normalTexture (applyInstancing true s) = normalTexture s
    /\ isPacked (applyInstancing true s) = isPacked s
    /\ originalMaterials (applyInstancing true s) = originalMaterials s
    /\ sceneAnimating (applyInstancing true s) = sceneAnimating s.
Proof.
  intros Hcur Hvat Htex. unfold panel_layout.
  destruct (instanceLayout_total (Number (instanceCountInput (controls s)))
              (Number (instanceSpacingInput (controls s)))
              (read_numFrames (controls s)) (read_fps (controls s))) as (L & EL).
  exists L. split; [exact EL|].
  unfold applyInstancing. rewrite Hcur, Hvat, Htex. cbn [negb]. rewrite EL.
  cbn [materials vatMaterialInstanced meshes isInstancedMode status vatMaterial vatTime
       isPlaying controls currentVatMesh positionTexture normalTexture isPacked
       originalMaterials sceneAnimating].
  rewrite on_material_length. repeat split; try reflexivity; auto.
Qed.

(** [applyInstancing (false)] when its guard passes. *)
Lemma applyInstancing_false_state (s : State) (cur vat : nat) (tex : Texture) :
  currentVatMesh s = Some cur -> vatMaterial s = Some vat -> positionTexture s = Some tex ->
  materials (applyInstancing false s)
  = on_material dispose (vatMaterialInstanced s) (materials s)
  /\ vatMaterialInstanced (applyInstancing false s) = None
  /\ meshes (applyInstancing false s) = alter (without_instances vat) cur (meshes s)
  /\ isInstancedMode (applyInstancing false s) = false
  /\ status (applyInstancing false s) = InstancingDisabled
  /\ vatMaterial (applyInstancing false s) = vatMaterial s
  /\ vatTime (applyInstancing false s) = vatTime s
  /\ isPlaying (applyInstancing false s) = isPlaying s
  /\ controls (applyInstancing false s) = controls s
  /\ currentVatMesh (applyInstancing false s) = currentVatMesh s
  /\ positionTexture (applyInstancing false s) = positionTexture s
  /\ normalTexture (applyInstancing false s) = normalTexture s
  /\ isPacked (applyInstancing false s) = isPacked s
  /\ originalMaterials (applyInstancing false s) = originalMaterials s
  /\ sceneAnimating (applyInstancing false s) = sceneAnimating s.
Proof.
  intros Hcur Hvat Htex. unfold applyInstancing. rewrite Hcur, Hvat, Htex. cbn [negb].
  cbn [materials vatMaterialInstanced meshes isInstancedMode status vatMaterial vatTime
       isPlaying controls currentVatMesh positionTexture normalTexture isPacked
       originalMaterials sceneAnimating].
  repeat split; try reflexivity; auto.
Qed.

(** [applyInstancing] never touches the clock, the panel or the textures. *)
Lemma applyInstancing_keeps (enable : bool) (s : State) :
  vatTime (applyInstancing enable s) = vatTime s
  /\ isPlaying (applyInstancing enable s) = isPlaying s
  /\ controls (applyInstancing enable s) = controls s
  /\ vatMaterial (applyInstancing enable s) = vatMaterial s
  /\ currentVatMesh (applyInstancing enable s) = currentVatMesh s
  /\ positionTexture (applyInstancing enable s) = positionTexture s
  /\ normalTexture (applyInstancing enable s) = normalTexture s
  /\ isPacked (applyInstancing enable s) = isPacked s
  /\ originalMaterials (applyInstancing enable s) = originalMaterials s.
Proof.
  destruct (currentVatMesh s) as [cur|] eqn:Hcur;
    [destruct (vatMaterial s) as [vat|] eqn:Hvat;
     [destruct (positionTexture s) as [tex|] eqn:Htex|]|].
  - destruct enable.
    + destruct (applyInstancing_true_state s cur vat tex Hcur Hvat Htex)
        as (L & _ & _ & _ & _ & _ & _ & H1 & H2 & H3 & H4 & H5 & H6 & H7 & H8 & H9 & _).
      rewrite H1, H2, H3, H4, H5, H6, H7, H8, H9, Hcur, Hvat, Htex. repeat split.
    + destruct (applyInstancing_false_state s cur vat tex Hcur Hvat Htex)
        as (_ & _ & _ & _ & _ & H1 & H2 & H3 & H4 & H5 & H6 & H7 & H8 & H9 & _).
      rewrite H1, H2, H3, H4, H5, H6, H7, H8, H9, Hcur, Hvat, Htex. repeat split.
  - unfold applyInstancing. rewrite Hcur, Hvat, Htex. rewrite Hcur, Hvat, Htex. repeat split.
  - unfold applyInstancing. rewrite Hcur, Hvat. rewrite Hcur, Hvat. repeat split.
  - unfold applyInstancing. rewrite Hcur. rewrite Hcur. repeat split.
Qed.

(** The material that [applyVat] creates. *)
Lemma applyVat_new_material_uniforms (s : State) (tex : Texture) (d : option Texture) :
  uniforms_of (new_material false s tex (Fin 0) d) = panel_uniforms s (Fin 0).
Proof. reflexivity. Qed.

(** [applyVat] when its three preconditions hold and instancing is not
    ticked. *)
Lemma applyVat_plain_state (s : State) (tex : Texture) (idx : nat) (mesh : Mesh) :
  positionTexture s = Some tex ->
  find_mesh (Number (meshSelect (controls s))) (meshes s) = Some (idx, mesh) ->
  hasUV2 mesh = true ->
  instancedModeCheckbox (controls s) = false ->
  materials (applyVat s)
  = materials s
    ++ [new_material false s tex (Fin 0)
          (diffuse_of (remember_original mesh (originalMaterials s) !! uniqueId mesh))]
  /\ vatMaterial (applyVat s) = Some (length (materials s))
  /\ vatMaterialInstanced (applyVat s) = vatMaterialInstanced s
  /\ meshes (applyVat s) = alter (with_vat_material (length (materials s))) idx (meshes s)
  /\ isInstancedMode (applyVat s) = isInstancedMode s
  /\ originalMaterials (applyVat s) = remember_original mesh (originalMaterials s)
  /\ vatTime (applyVat s) = Fin 0
  /\ isPlaying (applyVat s) = false
  /\ currentVatMesh (applyVat s) = Some idx
  /\ sceneAnimating (applyVat s) = false
  /\ controls (applyVat s) = controls s
  /\ positionTexture (applyVat s) = positionTexture s
  /\ normalTexture (applyVat s) = normalTexture s
  /\ isPacked (applyVat s) = isPacked s.
Proof.
  intros Htex Hfind Huv Hbox. unfold applyVat. rewrite Htex, Hfind, Huv, Hbox.
  cbn [negb]. unfold setStatus.
  cbn [materials vatMaterialInstanced meshes isInstancedMode status vatMaterial vatTime
       isPlaying controls currentVatMesh positionTexture normalTexture isPacked
       originalMaterials sceneAnimating].
  repeat split; try reflexivity; auto.
Qed.

(** [applyVat] when its three preconditions hold and instancing is ticked:
    the instanced material is created right after the plain one. *)
Lemma applyVat_instanced_state (s : State) (tex : Texture) (idx : nat) (mesh : Mesh) :
  positionTexture s = Some tex ->
  find_mesh (Number (meshSelect (controls s))) (meshes s) = Some (idx, mesh) ->
  hasUV2 mesh = true ->
  instancedModeCheckbox (controls s) = true ->
  exists L,
    panel_layout s = Some L
    /\ materials (applyVat s)
       = on_material dispose (vatMaterialInstanced s)
           (materials s
            ++ [new_material false s tex (Fin 0)
                  (diffuse_of (remember_original mesh (originalMaterials s) !! uniqueId mesh))])
         ++ [new_material true s tex (Fin 0) None]
    /\ vatMaterial (applyVat s) = Some (length (materials s))
    /\ vatMaterialInstanced (applyVat s) = Some (S (length (materials s)))
    /\ meshes (applyVat s)
       = alter (with_instances (S (length (materials s))) L) idx
           (alter (with_vat_material (length (materials s))) idx (meshes s))
    /\ isInstancedMode (applyVat s) = true
    /\ originalMaterials (applyVat s) = remember_original mesh (originalMaterials s)
    /\ vatTime (applyVat s) = Fin 0
    /\ isPlaying (applyVat s) = false
    /\ currentVatMesh (applyVat s) = Some idx
    /\ sceneAnimating (applyVat s) = false
    /\ controls (applyVat s) = controls s
    /\ positionTexture (applyVat s) = positionTexture s
    /\ normalTexture (applyVat s) = normalTexture s
    /\ isPacked (applyVat s) = isPacked s.
Proof.
  intros Htex Hfind Huv Hbox. unfold applyVat. rewrite Htex, Hfind, Huv, Hbox.
  cbn [negb].
  match goal with
  | |- context [applyInstancing true ?x] => set (s1 := x)
  end.
  destruct (applyInstancing_true_state s1 idx (length (materials s)) tex
              eq_refl eq_refl eq_refl)
    as (L & EL & H1 & H2 & H3 & H4 & _ & H6 & H7 & H8 & H9 & H10 & H11 & H12 & H13 & H14 & H15).
  exists L. split; [exact EL|]. unfold setStatus.
  cbn [materials vatMaterialInstanced meshes isInstancedMode status vatMaterial vatTime
       isPlaying controls currentVatMesh positionTexture normalTexture isPacked
       originalMaterials sceneAnimating].
  rewrite H1, H2, H3, H4, H6, H7, H8, H9, H10, H11, H12, H13, H14, H15.
  subst s1.
  cbn [materials vatMaterialInstanced meshes isInstancedMode status vatMaterial vatTime
       isPlaying controls currentVatMesh positionTexture normalTexture isPacked
       originalMaterials sceneAnimating].
  rewrite length_app, Nat.add_1_r.
  repeat split; try reflexivity; auto.
Qed.

(** A listener that keeps the [uniqueId] of the meshes keeps the selection. *)
Lemma find_mesh_alter (f : Mesh -> Mesh) (meshId : num) (ms : list Mesh)
    (j idx : nat) (mesh : Mesh) :
  (forall m, uniqueId (f m) = uniqueId m) ->
  find_mesh meshId ms = Some (idx, mesh) ->
  find_mesh meshId (alter f j ms)
  = Some (idx, if decide (j = idx) then f mesh else mesh).
Proof.
  intros Hf H. unfold find_mesh in *.
  apply list_find_Some in H. destruct H as (Hl & HP & Hmin).
  apply list_find_Some. split; [|split].
  - rewrite list_lookup_alter. destruct (decide (j = idx)) as [->|_];
      [rewrite Hl; reflexivity | exact Hl].
  - destruct (decide (j = idx)); [rewrite Hf|]; exact HP.
  - intros k y Hk Hlt. rewrite list_lookup_alter in Hk.
    destruct (decide (j = k)) as [->|_].
    + destruct (ms !! k) as [y0|] eqn:E; [|discriminate].
      injection Hk as <-. rewrite Hf. apply (Hmin k y0 E Hlt).
    + apply (Hmin k y Hk Hlt).
Qed.

Lemma find_mesh_lookup (meshId : num) (ms : list Mesh) (idx : nat) (mesh : Mesh) :
  find_mesh meshId ms = Some (idx, mesh) -> ms !! idx = Some mesh.
Proof. unfold find_mesh. intros H. apply list_find_Some in H. tauto. Qed.

(** ** Activation, further *)

(** X16.  [applyVat] reports a validation failure exactly when the position
    texture, the selected mesh or its UV2 channel is missing (checked in
    that order, the first failure giving the message), and then nothing but
    the status changes; otherwise it reports that the VAT is applied. *)
Theorem applyVat_outcome (s : State) :
  (is_validation_failure (status (applyVat s)) = true
   <-> positionTexture s = None
       \/ find_mesh (Number (meshSelect (controls s))) (meshes s) = None
       \/ exists idx mesh,
            find_mesh (Number (meshSelect (controls s))) (meshes s) = Some (idx, mesh)
            /\ hasUV2 mesh = false)
  /\ (is_validation_failure (status (applyVat s)) = true ->
      applyVat s = setStatus (status (applyVat s)) s)
  /\ (positionTexture s = None -> status (applyVat s) = LoadPositionTextureFirst)
  /\ (positionTexture s <> None ->
      find_mesh (Number (meshSelect (controls s))) (meshes s) = None ->
      status (applyVat s) = SelectMeshFirst)
  /\ (is_validation_failure (status (applyVat s)) = false ->
      exists idx mesh,
        find_mesh (Number (meshSelect (controls s))) (meshes s) = Some (idx, mesh)
        /\ status (applyVat s)
           = VatApplied (mesh_name mesh) (read_numFrames (controls s))
               (read_fps (controls s)) (read_posMin (controls s)) (read_posMax (controls s))).
Proof.
  unfold applyVat.
  destruct (positionTexture s) as [tex|] eqn:Htex.
  - destruct (find_mesh (Number (meshSelect (controls s))) (meshes s))
      as [[idx mesh]|] eqn:Hfind.
    + destruct (hasUV2 mesh) eqn:Huv; cbn [negb].
      * unfold setStatus at 1 2 3 4 5 6. cbn [status is_validation_failure].
        split; [split; [discriminate|]|].
        { intros [H|[H|(i & m & [= <- <-] & H)]]; congruence. }
        split; [discriminate|]. split; [discriminate|]. split; [discriminate|].
        intros _. eauto.
      * cbn [setStatus status is_validation_failure].
        split; [split; [eauto 6 | reflexivity]|].
        split; [reflexivity|]. split; [discriminate|]. split; [discriminate|].
        discriminate.
    + cbn [setStatus status is_validation_failure].
      split; [split; [auto | reflexivity]|].
      split; [reflexivity|]. split; [discriminate|]. split; [reflexivity|].
      discriminate.
  - cbn [setStatus status is_validation_failure].
    split; [split; [auto | reflexivity]|].
    split; [reflexivity|]. split; [reflexivity|]. split; [congruence|].
    discriminate.
Qed.

Lemma dispose_uniforms (m : ShaderMaterial) :
  uniforms_of (dispose m) = uniforms_of m /\ mat_instanced (dispose m) = mat_instanced m
  /\ mat_vatTime (dispose m) = mat_vatTime m.
Proof. repeat split. Qed.

(** The plain material after a successful [applyVat]. *)
Lemma applyVat_material (s : State) (tex : Texture) (idx : nat) (mesh : Mesh) :
  positionTexture s = Some tex ->
  find_mesh (Number (meshSelect (controls s))) (meshes s) = Some (idx, mesh) ->
  hasUV2 mesh = true ->
  exists m,
    applied_material (applyVat s) = Some m
    /\ uniforms_of m = panel_uniforms s (Fin 0)
    /\ mat_instanced m = false
    /\ mat_positionTexture m = tex
    /\ mat_normalTexture m = normalTexture s
    /\ mat_debugMode m = Number (debugModeSelect (controls s))
    /\ mat_diffuseTexture m
       = diffuse_of (remember_original mesh (originalMaterials s) !! uniqueId mesh).
Proof.
  intros Htex Hfind Huv.
  set (vat := new_material false s tex (Fin 0)
                (diffuse_of (remember_original mesh (originalMaterials s) !! uniqueId mesh))).
  assert (Hvat : (materials s ++ [vat]) !! length (materials s) = Some vat)
    by (apply list_lookup_middle; reflexivity).
  unfold applied_material.
  destruct (instancedModeCheckbox (controls s)) eqn:Hbox.
  - destruct (applyVat_instanced_state s tex idx mesh Htex Hfind Huv Hbox)
      as (L & _ & Hm & Hv & _).
    rewrite Hv, Hm.
    rewrite lookup_app_l by (rewrite on_material_length, length_app; simpl; lia).
    destruct (on_material_lookup dispose (vatMaterialInstanced s) _ _ _ Hvat) as [E|E];
      fold vat; rewrite E; eexists; (split; [reflexivity|]); repeat split.
  - destruct (applyVat_plain_state s tex idx mesh Htex Hfind Huv Hbox) as (Hm & Hv & _).
    rewrite Hv, Hm. fold vat. rewrite Hvat. eexists. split; [reflexivity|].
    repeat split.
Qed.

(** The instanced material after a successful [applyVat] with instancing
    ticked. *)
Lemma applyVat_instanced_material (s : State) (tex : Texture) (idx : nat) (mesh : Mesh) :
  positionTexture s = Some tex ->
  find_mesh (Number (meshSelect (controls s))) (meshes s) = Some (idx, mesh) ->
  hasUV2 mesh = true ->
  instancedModeCheckbox (controls s) = true ->
  instanced_material (applyVat s) = Some (new_material true s tex (Fin 0) None).
Proof.
  intros Htex Hfind Huv Hbox.
  destruct (applyVat_instanced_state s tex idx mesh Htex Hfind Huv Hbox)
    as (L & _ & Hm & _ & Hvi & _).
  unfold instanced_material. rewrite Hvi, Hm.
  apply list_lookup_middle.
  rewrite on_material_length, length_app. simpl. lia.
Qed.

Lemma remember_original_lookup (mesh : Mesh) (orig : gmap Z MaterialRef) :
  remember_original mesh orig !! uniqueId mesh
  = Some (default (material mesh) (orig !! uniqueId mesh)).
Proof.
  unfold remember_original.
  destruct (orig !! uniqueId mesh) as [o|] eqn:E; cbn [default].
  - exact E.
  - apply lookup_insert_eq.
Qed.

Lemma remember_original_twice (mesh mesh' : Mesh) (orig : gmap Z MaterialRef) :
  uniqueId mesh' = uniqueId mesh ->
  remember_original mesh' (remember_original mesh orig) = remember_original mesh orig.
Proof.
  intros E. unfold remember_original at 1. rewrite E, remember_original_lookup.
  reflexivity.
Qed.

(** The selection stays valid after a successful [applyVat]. *)
Lemma applyVat_keeps_selection (s : State) (tex : Texture) (idx : nat) (mesh : Mesh) :
  positionTexture s = Some tex ->
  find_mesh (Number (meshSelect (controls s))) (meshes s) = Some (idx, mesh) ->
  hasUV2 mesh = true ->
  positionTexture (applyVat s) = Some tex
  /\ controls (applyVat s) = controls s
  /\ isPacked (applyVat s) = isPacked s
  /\ originalMaterials (applyVat s) = remember_original mesh (originalMaterials s)
  /\ exists mesh',
       find_mesh (Number (meshSelect (controls (applyVat s)))) (meshes (applyVat s))
       = Some (idx, mesh')
       /\ uniqueId mesh' = uniqueId mesh /\ hasUV2 mesh' = true
       /\ mesh_name mesh' = mesh_name mesh.
Proof.
  intros Htex Hfind Huv.
  destruct (instancedModeCheckbox (controls s)) eqn:Hbox.
  - destruct (applyVat_instanced_state s tex idx mesh Htex Hfind Huv Hbox)
      as (L & _ & _ & _ & _ & Hms & _ & Ho & _ & _ & _ & _ & Hc & Hp & _ & Hk).
    rewrite Hp, Hc, Hk, Ho, Hms, Htex. repeat (split; [reflexivity|]).
    eexists. split.
    + apply find_mesh_alter; [reflexivity|].
      apply find_mesh_alter; [reflexivity | exact Hfind].
    + rewrite !decide_True by reflexivity. cbn. auto.
  - destruct (applyVat_plain_state s tex idx mesh Htex Hfind Huv Hbox)
      as (_ & _ & _ & Hms & _ & Ho & _ & _ & _ & _ & Hc & Hp & _ & Hk).
    rewrite Hp, Hc, Hk, Ho, Hms, Htex. repeat (split; [reflexivity|]).
    eexists. split.
    + apply find_mesh_alter; [reflexivity | exact Hfind].
    + rewrite !decide_True by reflexivity. cbn. auto.
Qed.



(** X18.  The material a mesh had before its first activation is the one
    the player keeps for it: a later activation never replaces it (so the
    shader material put on the mesh by the first activation is never taken
    for the original), and the entries of the other meshes are untouched. *)
Theorem original_material_kept (s : State) (tex : Texture) (idx : nat) (mesh : Mesh) :
  positionTexture s = Some tex ->
  find_mesh (Number (meshSelect (controls s))) (meshes s) = Some (idx, mesh) ->
  hasUV2 mesh = true ->
  originalMaterials (applyVat s) !! uniqueId mesh
  = Some (default (material mesh) (originalMaterials s !! uniqueId mesh))
  /\ (forall k, k <> uniqueId mesh ->
        originalMaterials (applyVat s) !! k = originalMaterials s !! k)
  /\ originalMaterials (applyVat (applyVat s)) = originalMaterials (applyVat s).
Proof.
  intros Htex Hfind Huv.
  destruct (applyVat_keeps_selection s tex idx mesh Htex Hfind Huv)
    as (Htex' & _ & _ & Ho & mesh' & Hfind' & Hid & Huv' & _).
  split; [|split].
  - rewrite Ho. apply remember_original_lookup.
  - intros k Hk. rewrite Ho. unfold remember_original.
    destruct (originalMaterials s !! uniqueId mesh); [reflexivity|].
    apply lookup_insert_ne. auto.
  - destruct (applyVat_keeps_selection (applyVat s) tex idx mesh' Htex' Hfind' Huv')
      as (_ & _ & _ & Ho' & _).
    rewrite Ho', Ho. apply remember_original_twice. exact Hid.
Qed.

Lemma original_material_kept_witness :
  originalMaterials (applyVat (applyVat (demo_state true true true "48" "1")))
  = originalMaterials (applyVat (demo_state true true true "48" "1")).
Proof.
  destruct (original_material_kept (demo_state true true true "48" "1") demo_texture 0
              (demo_mesh true)) as (_ & _ & H).
  - reflexivity.
  - vm_compute. reflexivity.
  - reflexivity.
  - exact H.
Defined.

(** X19.  Activating twice in a row gives a new material object with the
    same decode uniforms, textures and debug mode as the first. *)
Theorem applyVat_twice (s : State) (tex : Texture) (idx : nat) (mesh : Mesh) :
  positionTexture s = Some tex ->
  find_mesh (Number (meshSelect (controls s))) (meshes s) = Some (idx, mesh) ->
  hasUV2 mesh = true ->
  exists m1 m2,
    applied_material (applyVat s) = Some m1
    /\ applied_material (applyVat (applyVat s)) = Some m2
    /\ vatMaterial (applyVat (applyVat s)) <> vatMaterial (applyVat s)
    /\ uniforms_of m2 = uniforms_of m1
    /\ mat_positionTexture m2 = mat_positionTexture m1
    /\ mat_normalTexture m2 = mat_normalTexture m1
    /\ mat_diffuseTexture m2 = mat_diffuseTexture m1
    /\ mat_debugMode m2 = mat_debugMode m1.
Proof.
  intros Htex Hfind Huv.
  destruct (applyVat_keeps_selection s tex idx mesh Htex Hfind Huv)
    as (Htex' & Hc & Hp & Ho & mesh' & Hfind' & Hid & Huv' & _).
  destruct (applyVat_material s tex idx mesh Htex Hfind Huv)
    as (m1 & E1 & U1 & _ & P1 & N1 & D1 & T1).
  destruct (applyVat_material (applyVat s) tex idx mesh' Htex' Hfind' Huv')
    as (m2 & E2 & U2 & _ & P2 & N2 & D2 & T2).
  exists m1, m2. split; [exact E1|]. split; [exact E2|].
  assert (Hn : normalTexture (applyVat s) = normalTexture s).
  { destruct (instancedModeCheckbox (controls s)) eqn:Hbox.
    - destruct (applyVat_instanced_state s tex idx mesh Htex Hfind Huv Hbox)
        as (L & H). tauto.
    - pose proof (applyVat_plain_state s tex idx mesh Htex Hfind Huv Hbox). tauto. }
  assert (Hlen : vatMaterial (applyVat (applyVat s)) <> vatMaterial (applyVat s)).
  { assert (Hv : vatMaterial (applyVat s) = Some (length (materials s))
                 /\ (length (materials s) < length (materials (applyVat s)))%nat).
    { destruct (instancedModeCheckbox (controls s)) eqn:Hbox.
      - destruct (applyVat_instanced_state s tex idx mesh Htex Hfind Huv Hbox)
          as (L & _ & Hm & Hv & _).
        split; [exact Hv|]. rewrite Hm, length_app, on_material_length, length_app.
        simpl. lia.
      - destruct (applyVat_plain_state s tex idx mesh Htex Hfind Huv Hbox)
          as (Hm & Hv & _).
        split; [exact Hv|]. rewrite Hm, length_app. simpl. lia. }
    destruct Hv as [Hv Hlt].
    assert (Hv' : vatMaterial (applyVat (applyVat s))
                  = Some (length (materials (applyVat s)))).
    { destruct (instancedModeCheckbox (controls (applyVat s))) eqn:Hbox.
      - destruct (applyVat_instanced_state _ tex idx mesh' Htex' Hfind' Huv' Hbox)
          as (L & _ & _ & Hv' & _). exact Hv'.
      - destruct (applyVat_plain_state _ tex idx mesh' Htex' Hfind' Huv' Hbox)
          as (_ & Hv' & _). exact Hv'. }
    rewrite Hv, Hv'. intros E. injection E as E. lia. }
  split; [exact Hlen|].
  split.
  { rewrite U2, U1. unfold panel_uniforms. rewrite Hc, Hp. reflexivity. }
  split; [congruence|]. split; [congruence|].
  split.
  { rewrite T2, T1, Ho, Hid, remember_original_twice by exact Hid. reflexivity. }
  rewrite D2, D1, Hc. reflexivity.
Qed.

Lemma applyVat_twice_witness :
  exists m1 m2,
    applied_material (applyVat (demo_state true false true "48" "1")) = Some m1
    /\ applied_material (applyVat (applyVat (demo_state true false true "48" "1"))) = Some m2
    /\ uniforms_of m2 = uniforms_of m1.
Proof.
  destruct (applyVat_twice (demo_state true false true "48" "1") demo_texture 0
              (demo_mesh true)) as (m1 & m2 & H1 & H2 & _ & H3 & _).
  - reflexivity.
  - vm_compute. reflexivity.
  - reflexivity.
  - exists m1, m2. split; [exact H1|]. split; [exact H2 | exact H3].
Defined.

(** X20.  With instancing ticked, the instanced material created by
    [applyVat] is a copy of the plain one for everything the decode stage
    reads, with the INSTANCES define, and it never gets the diffuse texture
    of the original material. *)
Theorem instanced_material_mirrors_plain (s : State) (tex : Texture) (idx : nat) (mesh : Mesh) :
  positionTexture s = Some tex ->
  find_mesh (Number (meshSelect (controls s))) (meshes s) = Some (idx, mesh) ->
  hasUV2 mesh = true ->
  instancedModeCheckbox (controls s) = true ->
  exists m mi,
    applied_material (applyVat s) = Some m
    /\ instanced_material (applyVat s) = Some mi
    /\ vatMaterialInstanced (applyVat s) <> vatMaterial (applyVat s)
    /\ uniforms_of mi = uniforms_of m
    /\ mat_positionTexture mi = mat_positionTexture m
    /\ mat_normalTexture mi = mat_normalTexture m
    /\ mat_debugMode mi = mat_debugMode m
    /\ mat_instanced mi = true /\ mat_instanced m = false
    /\ mat_disposed mi = false
    /\ mat_diffuseTexture mi = None /\ mat_useDiffuseTex mi = Fin 0.
Proof.
  intros Htex Hfind Huv Hbox.
  destruct (applyVat_material s tex idx mesh Htex Hfind Huv)
    as (m & E & U & I & P & N & D & _).
  exists m, (new_material true s tex (Fin 0) None).
  split; [exact E|].
  split; [apply (applyVat_instanced_material s tex idx mesh); assumption|].
  split.
  { destruct (applyVat_instanced_state s tex idx mesh Htex Hfind Huv Hbox)
      as (L & _ & _ & Hv & Hvi & _).
    rewrite Hv, Hvi. intros X. injection X as X. lia. }
  rewrite U, P, N, D, I. repeat split.
Qed.

Lemma instanced_material_mirrors_plain_witness :
  exists m mi,
    applied_material (applyVat (demo_state true true true "48" "1")) = Some m
    /\ instanced_material (applyVat (demo_state true true true "48" "1")) = Some mi
    /\ uniforms_of mi = uniforms_of m.
Proof.
  destruct (instanced_material_mirrors_plain (demo_state true true true "48" "1")
              demo_texture 0 (demo_mesh true)) as (m & mi & H1 & H2 & _ & H3 & _).
  - reflexivity.
  - vm_compute. reflexivity.
  - reflexivity.
  - reflexivity.
  - exists m, mi. split; [exact H1|]. split; [exact H2 | exact H3].
Defined.

(** X21.  Switching instancing on and off again puts the plain material
    back on the current mesh with no instances, disposes the instanced
    material made in between and forgets it; the clock, the play state, the
    panel and the other meshes are as before.  The instance buffers stay on
    the mesh. *)
Theorem instancing_on_then_off (s : State) (cur vat : nat) (tex : Texture) (mesh : Mesh) :
  currentVatMesh s = Some cur -> vatMaterial s = Some vat -> positionTexture s = Some tex ->
  meshes s !! cur = Some mesh ->
  let s2 := applyInstancing false (applyInstancing true s) in
  vatMaterialInstanced s2 = None
  /\ isInstancedMode s2 = false
  /\ vatMaterial s2 = Some vat
  /\ vatTime s2 = vatTime s /\ isPlaying s2 = isPlaying s /\ controls s2 = controls s
  /\ (exists mi, materials s2 !! length (materials s) = Some mi
                 /\ mat_instanced mi = true /\ mat_disposed mi = true)
  /\ (exists mesh' L,
        meshes s2 !! cur = Some mesh'
        /\ panel_layout s = Some L
        /\ material mesh' = ShaderRef vat
        /\ thinInstanceCount mesh' = Fin 0
        /\ thinMatrixBuffer mesh' = matricesData L
        /\ thinTimeOffsetBuffer mesh' = timeOffsets L
        /\ uniqueId mesh' = uniqueId mesh /\ hasUV2 mesh' = hasUV2 mesh)
  /\ forall j, j <> cur -> meshes s2 !! j = meshes s !! j.
Proof.
  intros Hcur Hvat Htex Hmesh s2.
  destruct (applyInstancing_true_state s cur vat tex Hcur Hvat Htex)
    as (L & EL & M1 & I1 & Ms1 & _ & _ & V1 & T1 & P1 & C1 & Cur1 & Tex1 & _).
  assert (Hcur1 : currentVatMesh (applyInstancing true s) = Some cur) by congruence.
  assert (Hvat1 : vatMaterial (applyInstancing true s) = Some vat) by congruence.
  assert (Htex1 : positionTexture (applyInstancing true s) = Some tex) by congruence.
  destruct (applyInstancing_false_state _ cur vat tex Hcur1 Hvat1 Htex1)
    as (M2 & I2 & Ms2 & Mode2 & _ & V2 & T2 & P2 & C2 & _).
  subst s2.
  split; [exact I2|]. split; [exact Mode2|]. split; [congruence|].
  split; [congruence|]. split; [congruence|]. split; [congruence|].
  split.
  { rewrite M2, I1, M1. cbn [on_material].
    rewrite list_lookup_alter_eq.
    rewrite list_lookup_middle by (rewrite on_material_length; reflexivity).
    eexists. split; [reflexivity|]. split; reflexivity. }
  split.
  { rewrite Ms2, Ms1. rewrite !list_lookup_alter_eq, Hmesh.
    eexists. exists L. split; [reflexivity|]. split; [exact EL|].
    repeat split. }
  intros j Hj. rewrite Ms2, Ms1. rewrite !list_lookup_alter_ne by auto. reflexivity.
Qed.

Lemma instancing_on_then_off_witness :
  vatMaterialInstanced
    (applyInstancing false
       (applyInstancing true (applyVat (demo_state true false true "48" "1")))) = None.
Proof.
  destruct (instancing_on_then_off (applyVat (demo_state true false true "48" "1"))
              0 0 demo_texture
              (with_vat_material 0 (demo_mesh true))) as (H & _).
  - reflexivity.
  - reflexivity.
  - reflexivity.
  - reflexivity.
  - exact H.
Defined.

(** ** What every sequence of events keeps *)

Lemma lookup_on_material (f : ShaderMaterial -> ShaderMaterial) (r : option nat)
    (ms : list ShaderMaterial) (i : nat) :
  on_material f r ms !! i = if decide (r = Some i) then f <$> ms !! i else ms !! i.
Proof.
  destruct r as [j|]; simpl.
  - destruct (decide (Some j = Some i)) as [E|E].
    + injection E as ->. apply list_lookup_alter_eq.
    + apply list_lookup_alter_ne. congruence.
  - destruct (decide (None = Some i)); [discriminate | reflexivity].
Qed.

Lemma on_material_keeps (f : ShaderMaterial -> ShaderMaterial) (P : ShaderMaterial -> Prop)
    (r : option nat) (ms : list ShaderMaterial) (i : nat) (m : ShaderMaterial) :
  (forall m, P m -> P (f m)) -> ms !! i = Some m -> P m ->
  exists m', on_material f r ms !! i = Some m' /\ P m'.
Proof.
  intros Hf Hl Hm. rewrite lookup_on_material, Hl.
  destruct (decide (r = Some i)); simpl; eauto.
Qed.

Lemma on_both_lookup (f : ShaderMaterial -> ShaderMaterial)
    (Pold Pnew : ShaderMaterial -> Prop) (r1 r2 : option nat)
    (ms : list ShaderMaterial) (i : nat) (m : ShaderMaterial) :
  (forall m, Pold m -> Pnew (f m)) -> (forall m, Pnew m -> Pnew (f m)) ->
  ms !! i = Some m -> Pold m -> r1 = Some i \/ r2 = Some i ->
  exists m', on_material f r2 (on_material f r1 ms) !! i = Some m' /\ Pnew m'.
Proof.
  intros Hon Hnn Hl Hm Hr. rewrite !lookup_on_material, Hl.
  destruct (decide (r2 = Some i)), (decide (r1 = Some i)); simpl; eauto.
  destruct Hr; contradiction.
Qed.

(** A listener that writes the same thing to both materials. *)
Lemma consistent_update (f : ShaderMaterial -> ShaderMaterial) (s s' : State) :
  materials s'
  = on_material f (vatMaterialInstanced s) (on_material f (vatMaterial s) (materials s)) ->
  vatMaterial s' = vatMaterial s ->
  vatMaterialInstanced s' = vatMaterialInstanced s ->
  currentVatMesh s' = currentVatMesh s ->
  positionTexture s' = positionTexture s ->
  isInstancedMode s' = isInstancedMode s ->
  meshes s' = meshes s ->
  instancedModeCheckbox (controls s') = instancedModeCheckbox (controls s) ->
  (forall m, in_step s m -> in_step s' (f m)) ->
  (forall m, in_step s' m -> in_step s' (f m)) ->
  consistent s -> consistent s'.
Proof.
  intros Hm Hv Hi Hc Ht Hmode Hms Hbox Hon Hnn (C1 & C2 & C3 & C4 & C5 & C6).
  unfold consistent, ref_in_step, shown_material.
  rewrite Hm, Hv, Hi, Hc, Ht, Hmode, Hms, Hbox.
  split; [|split; [|split; [|split; [|split]]]]; try assumption.
  - intros i E. destruct (C1 i E) as (m & Hl & Hs).
    apply (on_both_lookup f (in_step s) (in_step s') _ _ _ i m); auto.
  - intros i E. destruct (C2 i E) as (m & Hl & Hs).
    apply (on_both_lookup f (in_step s) (in_step s') _ _ _ i m); auto.
Qed.

Lemma applyInstancing_consistent (enable : bool) (s : State) (c v : nat) (t : Texture)
    (mesh : Mesh) :
  currentVatMesh s = Some c -> vatMaterial s = Some v -> positionTexture s = Some t ->
  meshes s !! c = Some mesh ->
  ref_in_step s (vatMaterial s) ->
  (enable = true -> instancedModeCheckbox (controls s) = true) ->
  consistent (applyInstancing enable s).
Proof.
  intros Hc Hv Ht Hmesh Hstep Hbox.
  destruct (Hstep v Hv) as (m & Hl & Hm).
  destruct enable.
  - destruct (applyInstancing_true_state s c v t Hc Hv Ht)
      as (L & EL & M1 & I1 & Ms1 & Mode1 & _ & V1 & T1 & _ & C1 & Cur1 & Tex1 & _).
    unfold consistent, ref_in_step, shown_material, in_step.
    rewrite M1, I1, Ms1, Mode1, V1, T1, C1, Cur1, Tex1, Hc, Hv, Ht.
    split; [|split; [|split; [|split; [|split]]]].
    + intros i E. injection E as <-.
      rewrite lookup_app_l by (rewrite on_material_length; eapply lookup_lt_Some; eauto).
      apply (on_material_keeps dispose (in_step s) _ _ v m); auto.
    + intros i E. injection E as <-.
      rewrite list_lookup_middle by (rewrite on_material_length; reflexivity).
      eexists. split; [reflexivity|]. repeat split.
    + intros _. split; [auto | eauto].
    + intros _. split; eauto.
    + reflexivity.
    + intros c' E. injection E as <-. rewrite list_lookup_alter_eq, Hmesh.
      eexists. eexists. split; [reflexivity|]. split; reflexivity.
  - destruct (applyInstancing_false_state s c v t Hc Hv Ht)
      as (M1 & I1 & Ms1 & Mode1 & _ & V1 & T1 & _ & C1 & Cur1 & Tex1 & _).
    unfold consistent, ref_in_step, shown_material, in_step.
    rewrite M1, I1, Ms1, Mode1, V1, T1, C1, Cur1, Tex1, Hc, Hv, Ht.
    split; [|split; [|split; [|split; [|split]]]].
    + intros i E. injection E as <-.
      apply (on_material_keeps dispose (in_step s) _ _ v m); auto.
    + intros i E. discriminate.
    + intros [x E]. discriminate.
    + intros _. split; eauto.
    + reflexivity.
    + intros c' E. injection E as <-. rewrite list_lookup_alter_eq, Hmesh.
      eexists. eexists. split; [reflexivity|]. split; reflexivity.
Qed.

Lemma applyVat_consistent (s : State) : consistent s -> consistent (applyVat s).
Proof.
  intros Hs.
  destruct (positionTexture s) as [tex|] eqn:Htex;
    [|unfold applyVat; rewrite Htex; exact Hs].
  destruct (find_mesh (Number (meshSelect (controls s))) (meshes s)) as [[idx mesh]|] eqn:Hfind;
    [|unfold applyVat; rewrite Htex, Hfind; exact Hs].
  destruct (hasUV2 mesh) eqn:Huv;
    [|unfold applyVat; rewrite Htex, Hfind, Huv; exact Hs].
  pose proof (find_mesh_lookup _ _ _ _ Hfind) as Hl.
  destruct Hs as (C1 & C2 & C3 & C4 & C5 & C6).
  destruct (instancedModeCheckbox (controls s)) eqn:Hbox.
  - destruct (applyVat_instanced_state s tex idx mesh Htex Hfind Huv Hbox)
      as (L & _ & M & V & I & Ms & Mode & _ & T & _ & Cur & _ & C & Tex & _).
    unfold consistent, ref_in_step, shown_material, in_step.
    rewrite M, V, I, Ms, Mode, T, Cur, C, Tex, Htex, Hbox.
    split; [|split; [|split; [|split; [|split]]]].
    + intros i E. injection E as <-.
      rewrite lookup_app_l by (rewrite on_material_length, length_app; simpl; lia).
      eapply (on_material_keeps dispose
                (fun m => mat_vatTime m = Fin 0
                          /\ mat_flipV m = bool_float (flipVCheckbox (controls s))
                          /\ mat_useOffset m = bool_float (useOffsetCheckbox (controls s))
                          /\ mat_debugMode m = Number (debugModeSelect (controls s)))).
      * intros m Hm. exact Hm.
      * apply list_lookup_middle. reflexivity.
      * repeat split.
    + intros i E. injection E as <-.
      rewrite list_lookup_middle
        by (rewrite on_material_length, length_app; simpl; lia).
      eexists. split; [reflexivity|]. repeat split.
    + intros _. split; [reflexivity | eauto].
    + intros _. split; eauto.
    + reflexivity.
    + intros c' E. injection E as <-. rewrite !list_lookup_alter_eq, Hl.
      eexists. eexists. split; [reflexivity|]. split; reflexivity.
  - destruct (applyVat_plain_state s tex idx mesh Htex Hfind Huv Hbox)
      as (M & V & I & Ms & Mode & _ & T & _ & Cur & _ & C & Tex & _).
    assert (Hnone : vatMaterialInstanced s = None).
    { destruct (vatMaterialInstanced s) eqn:E; [|reflexivity].
      destruct C3 as [C3 _]; [eauto|]. congruence. }
    unfold consistent, ref_in_step, shown_material, in_step.
    rewrite M, V, I, Ms, Mode, T, Cur, C, Tex, Htex, C5, Hnone.
    split; [|split; [|split; [|split; [|split]]]].
    + intros i E. injection E as <-.
      rewrite list_lookup_middle by reflexivity.
      eexists. split; [reflexivity|]. repeat split.
    + intros i E. discriminate.
    + intros [x E]. discriminate.
    + intros _. split; eauto.
    + reflexivity.
    + intros c' E. injection E as <-. rewrite list_lookup_alter_eq, Hl.
      eexists. eexists. split; [reflexivity|]. split; reflexivity.
Qed.

Lemma renderTick_consistent (deltaTime : num) (s : State) :
  consistent s -> consistent (renderTick deltaTime s).
Proof.
  intros Hs. unfold renderTick. destruct (isPlaying s); [|exact Hs].
  match goal with
  | |- context [set_mat_vatTime ?t] =>
      eapply (consistent_update (set_mat_vatTime t) s); try reflexivity; [| |exact Hs]
  end.
  - intros m (H1 & H2 & H3 & H4). repeat split; assumption.
  - intros m (H1 & H2 & H3 & H4). repeat split; assumption.
Qed.

Lemma resetClick_consistent (s : State) : consistent s -> consistent (resetClick s).
Proof.
  intros Hs.
  eapply (consistent_update (set_mat_vatTime (Fin 0)) s); try reflexivity; [| |exact Hs].
  - intros m (H1 & H2 & H3 & H4). repeat split; assumption.
  - intros m (H1 & H2 & H3 & H4). repeat split; assumption.
Qed.

Lemma instancing_listener_consistent (enable : bool) (s s1 : State) :
  consistent s ->
  materials s1 = materials s -> vatMaterial s1 = vatMaterial s ->
  currentVatMesh s1 = currentVatMesh s -> positionTexture s1 = positionTexture s ->
  meshes s1 = meshes s ->
  (forall m, in_step s m -> in_step s1 m) ->
  (enable = true -> instancedModeCheckbox (controls s1) = true) ->
  is_Some (currentVatMesh s) ->
  consistent (applyInstancing enable s1).
Proof.
  intros (C1 & C2 & C3 & C4 & C5 & C6) Hm Hv Hc Ht Hms Hstep Hbox [c Ec].
  destruct C4 as [[v Ev] [t Et]]; [eauto|].
  destruct (C6 c Ec) as (mesh & r & Hl & _).
  apply (applyInstancing_consistent enable s1 c v t mesh).
  - congruence.
  - congruence.
  - congruence.
  - rewrite Hms. exact Hl.
  - intros i E. rewrite Hv in E. destruct (C1 i E) as (m & Hlm & Hsm).
    exists m. rewrite Hm. auto.
  - exact Hbox.
Qed.

Lemma instancingTextChange_consistent (f : TextField) (value : jsstring) (s : State) :
  f = FInstanceCount \/ f = FInstanceSpacing ->
  consistent s -> consistent (instancingTextChange f value s).
Proof.
  intros Hf Hs. unfold instancingTextChange. cbv zeta.
  set (s1 := set_controls (set_text f value (controls s)) s).
  assert (Es : consistent s1) by (destruct Hf as [-> | ->]; exact Hs).
  change (currentVatMesh s1) with (currentVatMesh s).
  destruct (currentVatMesh s) as [c|] eqn:Ec; [|exact Es].
  destruct (instancedModeCheckbox (controls s1)) eqn:Hbox; [|exact Es].
  apply (instancing_listener_consistent true s); try reflexivity; auto.
  all: try (destruct Hf as [-> | ->]; intros m H; exact H).
  all: try (rewrite Ec; eauto).
Qed.

Lemma instancedModeChange_consistent (checked : bool) (s : State) :
  consistent s -> consistent (instancedModeChange checked s).
Proof.
  intros Hs. unfold instancedModeChange. cbv zeta.
  set (s1 := set_controls (set_check BInstancedMode checked (controls s)) s).
  change (currentVatMesh s1) with (currentVatMesh s).
  destruct (currentVatMesh s) as [c|] eqn:Ec.
  - apply (instancing_listener_consistent checked s); try reflexivity; auto.
    all: try (intros ->; reflexivity).
    all: try (rewrite Ec; eauto).
  - destruct Hs as (C1 & C2 & C3 & C4 & C5 & C6).
    assert (Hnone : vatMaterialInstanced s = None).
    { destruct (vatMaterialInstanced s) eqn:E; [|reflexivity].
      destruct C3 as [_ [x C3]]; [eauto|]. congruence. }
    unfold consistent, ref_in_step, shown_material.
    change (vatMaterial s1) with (vatMaterial s).
    change (vatMaterialInstanced s1) with (vatMaterialInstanced s).
    change (currentVatMesh s1) with (currentVatMesh s).
    change (isInstancedMode s1) with (isInstancedMode s).
    change (materials s1) with (materials s).
    rewrite Hnone, Ec.
    split; [exact C1|]. split; [intros i E; discriminate|].
    split; [intros [x E]; discriminate|].
    split; [intros [x E]; discriminate|].
    split; [rewrite C5, Hnone; reflexivity|]. intros c E. discriminate.
Qed.

Lemma handle_consistent (ev : Event) (s : State) :
  consistent s -> consistent (handle ev s).
Proof.
  intros Hs. destruct ev as [| | | |deltaTime|f value|k checked]; cbn [handle].
  - apply applyVat_consistent. exact Hs.
  - exact Hs.
  - exact Hs.
  - apply resetClick_consistent. exact Hs.
  - apply renderTick_consistent. exact Hs.
  - destruct f; try exact Hs.
    + unfold debugModeChange, on_both.
      eapply (consistent_update (set_mat_debugMode (Number value)) s);
        try reflexivity; [| |exact Hs].
      * intros m (H1 & H2 & H3 & H4). repeat split; assumption.
      * intros m (H1 & H2 & H3 & H4). repeat split; assumption.
    + apply instancingTextChange_consistent; auto.
    + apply instancingTextChange_consistent; auto.
  - destruct k.
    + unfold flipVChange, on_both.
      eapply (consistent_update (set_mat_flipV (bool_float checked)) s);
        try reflexivity; [| |exact Hs].
      * intros m (H1 & H2 & H3 & H4). repeat split; assumption.
      * intros m (H1 & H2 & H3 & H4). repeat split; assumption.
    + unfold useOffsetChange, on_both.
      eapply (consistent_update (set_mat_useOffset (bool_float checked)) s);
        try reflexivity; [| |exact Hs].
      * intros m (H1 & H2 & H3 & H4). repeat split; assumption.
      * intros m (H1 & H2 & H3 & H4). repeat split; assumption.
    + apply instancedModeChange_consistent. exact Hs.
Qed.

Lemma run_consistent (evs : list Event) (s : State) :
  consistent s -> consistent (run evs s).
Proof.
  revert s. induction evs as [|ev evs IH]; intros s Hs; [exact Hs|].
  cbn [run fold_left]. apply IH. apply handle_consistent. exact Hs.
Qed.

Lemma fresh_consistent (s : State) : fresh s -> consistent s.
Proof.
  intros (Hv & Hi & Hc & Hm). unfold consistent, ref_in_step, shown_material.
  rewrite Hv, Hi, Hc, Hm.
  split; [intros i E; discriminate|]. split; [intros i E; discriminate|].
  split; [intros [x E]; discriminate|]. split; [intros [x E]; discriminate|].
  split; [reflexivity|]. intros c E. discriminate.
Qed.

(** X22.  Starting from a player with nothing activated, after any sequence
    of clicks, edits of the panel and render frames: each shader material the
    player refers to exists and carries the player's clock and the flip V,
    use offset and debug mode of the panel; an instanced material exists
    only while the instancing box is ticked, and exactly when the player is
    in instanced mode; and the current mesh shows the instanced material in
    instanced mode and the plain one otherwise. *)
Theorem player_stays_consistent (evs : list Event) (s : State) :
  fresh s ->
  let s' := run evs s in
  (forall r, vatMaterial s' = Some r ->
     exists m, materials s' !! r = Some m
               /\ mat_vatTime m = vatTime s'
               /\ mat_flipV m = bool_float (flipVCheckbox (controls s'))
               /\ mat_useOffset m = bool_float (useOffsetCheckbox (controls s'))
               /\ mat_debugMode m = Number (debugModeSelect (controls s')))
  /\ (forall r, vatMaterialInstanced s' = Some r ->
        exists m, materials s' !! r = Some m
                  /\ mat_vatTime m = vatTime s'
                  /\ mat_flipV m = bool_float (flipVCheckbox (controls s'))
                  /\ mat_useOffset m = bool_float (useOffsetCheckbox (controls s'))
                  /\ mat_debugMode m = Number (debugModeSelect (controls s')))
  /\ (is_Some (vatMaterialInstanced s') -> instancedModeCheckbox (controls s') = true)
  /\ (isInstancedMode s' = true <-> is_Some (vatMaterialInstanced s'))
  /\ (forall c, currentVatMesh s' = Some c ->
        exists mesh r,
          meshes s' !! c = Some mesh
          /\ material mesh = ShaderRef r
          /\ (if isInstancedMode s' then vatMaterialInstanced s' else vatMaterial s')
             = Some r).
Proof.
  intros Hf s'.
  destruct (run_consistent evs s (fresh_consistent s Hf)) as (C1 & C2 & C3 & C4 & C5 & C6).
  fold s' in C1, C2, C3, C4, C5, C6.
  split; [exact C1|]. split; [exact C2|].
  split; [intros H; apply C3; exact H|].
  split.
  { rewrite C5. destruct (vatMaterialInstanced s'); split; eauto; try discriminate.
    intros [x E]. discriminate. }
  intros c Ec. destruct (C6 c Ec) as (mesh & r & H1 & H2 & H3).
  exists mesh, r. auto.
Qed.

Lemma player_stays_consistent_witness :
  isInstancedMode
    (run [ClickApply; ClickPlay; RenderFrame (Fin 16); ToggleCheck BInstancedMode true;
          ToggleCheck BFlipV true; ClickReset]
       (demo_state true false false "48" "1")) = true
  <-> is_Some (vatMaterialInstanced
                 (run [ClickApply; ClickPlay; RenderFrame (Fin 16);
                       ToggleCheck BInstancedMode true; ToggleCheck BFlipV true; ClickReset]
                    (demo_state true false false "48" "1"))).
Proof.
  assert (Hf : fresh (demo_state true false false "48" "1")) by (repeat split).
  pose proof (player_stays_consistent
                [ClickApply; ClickPlay; RenderFrame (Fin 16); ToggleCheck BInstancedMode true;
                 ToggleCheck BFlipV true; ClickReset]
                (demo_state true false false "48" "1") Hf) as H.
  cbv zeta in H. destruct H as (_ & _ & _ & H & _). exact H.
Defined.

(** ** Metadata, from the file to the material *)

Lemma applyMetadata_state (toString : num -> jsstring) (meta : VatMetadata) (s : State) :
  let s' := applyMetadata toString meta s in
  positionTexture s' = positionTexture s
  /\ normalTexture s' = normalTexture s
  /\ materials s' = materials s
  /\ vatMaterial s' = vatMaterial s
  /\ vatMaterialInstanced s' = vatMaterialInstanced s
  /\ originalMaterials s' = originalMaterials s
  /\ vatTime s' = vatTime s
  /\ isPlaying s' = isPlaying s
  /\ currentVatMesh s' = currentVatMesh s
  /\ isInstancedMode s' = isInstancedMode s
  /\ meshes s' = meshes s
  /\ status s' = status s
  /\ isPacked s' = default (isPacked s) (m_packed meta)
  /\ meshSelect (controls s') = meshSelect (controls s)
  /\ speedInput (controls s') = speedInput (controls s)
  /\ flipVCheckbox (controls s') = flipVCheckbox (controls s)
  /\ useOffsetCheckbox (controls s') = useOffsetCheckbox (controls s)
  /\ debugModeSelect (controls s') = debugModeSelect (controls s)
  /\ instancedModeCheckbox (controls s') = instancedModeCheckbox (controls s)
  /\ instanceCountInput (controls s') = instanceCountInput (controls s)
  /\ instanceSpacingInput (controls s') = instanceSpacingInput (controls s)
  /\ numFramesInput (controls s')
     = default (numFramesInput (controls s)) (toString <$> m_numFrames meta)
  /\ fpsInput (controls s') = default (fpsInput (controls s)) (toString <$> m_fps meta)
  /\ posMinX (controls s')
     = default (posMinX (controls s)) ((fun v => toString v.1.1) <$> m_posMin meta)
  /\ posMinY (controls s')
     = default (posMinY (controls s)) ((fun v => toString v.1.2) <$> m_posMin meta)
  /\ posMinZ (controls s')
     = default (posMinZ (controls s)) ((fun v => toString v.2) <$> m_posMin meta)
  /\ posMaxX (controls s')
     = default (posMaxX (controls s)) ((fun v => toString v.1.1) <$> m_posMax meta)
  /\ posMaxY (controls s')
     = default (posMaxY (controls s)) ((fun v => toString v.1.2) <$> m_posMax meta)
  /\ posMaxZ (controls s')
     = default (posMaxZ (controls s)) ((fun v => toString v.2) <$> m_posMax meta).
Proof.
  destruct meta as [[nf|] [fp|] [[[x1 y1] z1]|] [[[x2 y2] z2]|] [pk|]];
    cbv zeta; repeat split.
Qed.

(** X23.  A material file changes only the frame count, the frame rate and
    the bounds fields of the panel: the packed flag, the other controls, the
    clock, the meshes and the materials already made are as before (the
    values reach a material at the next activation).  A bounds triple with
    one coordinate missing from the file is dropped as a whole, and its
    three fields keep their text. *)
Theorem unity_metadata_scope (toString : num -> jsstring) (text : jsstring) (s : State) :
  let s' := applyMetadata toString (parseUnityMaterial text) s in
  isPacked s' = isPacked s
  /\ materials s' = materials s /\ meshes s' = meshes s
  /\ vatTime s' = vatTime s /\ isPlaying s' = isPlaying s
  /\ applied_material s' = applied_material s
  /\ meshSelect (controls s') = meshSelect (controls s)
  /\ speedInput (controls s') = speedInput (controls s)
  /\ flipVCheckbox (controls s') = flipVCheckbox (controls s)
  /\ useOffsetCheckbox (controls s') = useOffsetCheckbox (controls s)
  /\ instancedModeCheckbox (controls s') = instancedModeCheckbox (controls s)
  /\ (extractFloat text (str "_boundMinX") = None
      \/ extractFloat text (str "_boundMinY") = None
      \/ extractFloat text (str "_boundMinZ") = None ->
      posMinX (controls s') = posMinX (controls s)
      /\ posMinY (controls s') = posMinY (controls s)
      /\ posMinZ (controls s') = posMinZ (controls s))
  /\ (extractFloat text (str "_boundMaxX") = None
      \/ extractFloat text (str "_boundMaxY") = None
      \/ extractFloat text (str "_boundMaxZ") = None ->
      posMaxX (controls s') = posMaxX (controls s)
      /\ posMaxY (controls s') = posMaxY (controls s)
      /\ posMaxZ (controls s') = posMaxZ (controls s))
  /\ (extractFloat text (str "_frameCount") = None ->
      numFramesInput (controls s') = numFramesInput (controls s))
  /\ (extractFloat text (str "_houdiniFPS") = None ->
      fpsInput (controls s') = fpsInput (controls s)).
Proof.
  intros s'.
  pose proof (applyMetadata_state toString (parseUnityMaterial text) s) as H.
  cbv zeta in H. fold s' in H.
  destruct H as (H1 & H2 & H3 & H4 & H5 & H6 & H7 & H8 & H9 & H10 & H11 & H12 & H13 & H14
                 & H15 & H16 & H17 & H18 & H19 & H20 & H21 & H22 & H23 & H24 & H25 & H26 & H27
                 & H28 & H29).
  split; [exact H13|]. split; [exact H3|]. split; [exact H11|].
  split; [exact H7|]. split; [exact H8|].
  split; [unfold applied_material; rewrite H4, H3; reflexivity|].
  split; [exact H14|]. split; [exact H15|]. split; [exact H16|]. split; [exact H17|].
  split; [exact H19|].
  split.
  { intros Hn.
    assert (E : m_posMin (parseUnityMaterial text) = None).
    { cbn [parseUnityMaterial m_posMin]. unfold triple.
      destruct Hn as [-> | [-> | ->]];
        repeat match goal with |- context [match ?x with _ => _ end] => destruct x end;
        reflexivity. }
    rewrite E in H24, H25, H26. auto. }
  split.
  { intros Hn.
    assert (E : m_posMax (parseUnityMaterial text) = None).
    { cbn [parseUnityMaterial m_posMax]. unfold triple.
      destruct Hn as [-> | [-> | ->]];
        repeat match goal with |- context [match ?x with _ => _ end] => destruct x end;
        reflexivity. }
    rewrite E in H27, H28, H29. auto. }
  split.
  { intros Hn. rewrite H22. cbn [parseUnityMaterial m_numFrames]. rewrite Hn. reflexivity. }
  intros Hn. rewrite H23. cbn [parseUnityMaterial m_fps]. rewrite Hn. reflexivity.
Qed.

(** X24.  From the file to the shader: after a material file with a
    [_frameCount] line is loaded and the VAT is applied, the frame count of
    the material is that number rounded to the nearest integer, or 24 when
    it rounds to 0 or is NaN; likewise the frame rate is the [_houdiniFPS]
    number as it is, or 24.  [toString] is only asked to be read back by
    [Number] on these two values. *)
Theorem metadata_reaches_material (toString : num -> jsstring) (text : jsstring)
    (s : State) (tex : Texture) (idx : nat) (mesh : Mesh) (frameCount fps : num) :
  positionTexture s = Some tex ->
  find_mesh (Number (meshSelect (controls s))) (meshes s) = Some (idx, mesh) ->
  hasUV2 mesh = true ->
  extractFloat text (str "_frameCount") = Some frameCount ->
  extractFloat text (str "_houdiniFPS") = Some fps ->
  Number (toString (js_round frameCount)) = js_round frameCount ->
  Number (toString fps) = fps ->
  exists m,
    applied_material (applyVat (applyMetadata toString (parseUnityMaterial text) s)) = Some m
    /\ Shader.u_numFrames (uniforms_of m) = js_or (js_round frameCount) (Fin 24)
    /\ Shader.u_fps (uniforms_of m) = js_or fps (Fin 24).
Proof.
  intros Htex Hfind Huv Hfc Hfps Hr1 Hr2.
  set (s' := applyMetadata toString (parseUnityMaterial text) s).
  pose proof (applyMetadata_state toString (parseUnityMaterial text) s) as H.
  cbv zeta in H. fold s' in H.
  destruct H as (H1 & H2 & H3 & H4 & H5 & H6 & H7 & H8 & H9 & H10 & H11 & H12 & H13 & H14
                 & H15 & H16 & H17 & H18 & H19 & H20 & H21 & H22 & H23 & H24 & H25 & H26 & H27
                 & H28 & H29).
  assert (Htex' : positionTexture s' = Some tex) by congruence.
  assert (Hfind' : find_mesh (Number (meshSelect (controls s'))) (meshes s') = Some (idx, mesh))
    by (rewrite H14, H11; exact Hfind).
  destruct (applyVat_material s' tex idx mesh Htex' Hfind' Huv) as (m & Em & Hu & _).
  assert (En : numFramesInput (controls s') = toString (js_round frameCount)).
  { rewrite H22. change (m_numFrames (parseUnityMaterial text))
      with (match extractFloat text (str "_frameCount") with
            | Some v => Some (js_round v)
            | None => None
            end).
    rewrite Hfc. reflexivity. }
  assert (Ef : fpsInput (controls s') = toString fps).
  { rewrite H23. change (m_fps (parseUnityMaterial text))
      with (extractFloat text (str "_houdiniFPS")).
    rewrite Hfps. reflexivity. }
  exists m. split; [exact Em|]. rewrite Hu.
  unfold panel_uniforms, read_numFrames, read_fps.
  cbn [Shader.u_numFrames Shader.u_fps]. rewrite En, Ef, Hr1, Hr2. auto.
Qed.

Lemma metadata_reaches_material_witness :
  exists m,
    applied_material
      (applyVat (applyMetadata (fun _ => str "48")
                   (parseUnityMaterial (str "- _frameCount: 47.6 - _houdiniFPS: 48"))
                   (demo_state true false false "" "1"))) = Some m
    /\ Shader.u_numFrames (uniforms_of m) = Fin 48
    /\ Shader.u_fps (uniforms_of m) = Fin 48.
Proof.
  destruct (metadata_reaches_material (fun _ => str "48")
              (str "- _frameCount: 47.6 - _houdiniFPS: 48")
              (demo_state true false false "" "1") demo_texture 0 (demo_mesh true)
              (Fin (238 # 5)) (Fin 48)) as (m & E & H1 & H2).
  - reflexivity.
  - vm_compute. reflexivity.
  - reflexivity.
  - vm_compute. reflexivity.
  - vm_compute. reflexivity.
  - vm_compute. reflexivity.
  - vm_compute. reflexivity.
  - exists m. split; [exact E|]. split; [rewrite H1 | rewrite H2]; vm_compute; reflexivity.
Defined.

(** ** From the texture file to the decoded position *)

Lemma js_gt_bool_float (b : bool) : js_gt (bool_float b) (Fin (1 # 2)) = b.
Proof. destruct b; vm_compute; reflexivity. Qed.

(** X25.  The format detected from the name of the position texture decides
    how the applied material decodes a texel: for an HDR file (exr, tiff,
    tif, hdr) the texel is the position and the bounds of the panel play no
    part; for any other file the texel is scaled from the bounds.  With use
    offset ticked the result is added to the rest position. *)
Theorem texture_format_decides_decoding (s : State) (tex : Texture) (idx : nat) (mesh : Mesh)
    (name : jsstring) :
  positionTexture s = Some tex ->
  find_mesh (Number (meshSelect (controls s))) (meshes s) = Some (idx, mesh) ->
  hasUV2 mesh = true ->
  isPacked s = isPackedFile name ->
  exists m,
    applied_material (applyVat s) = Some m
    /\ forall (off : option num) (sampler : Shader.vec2 -> Shader.vec3)
              (position : Shader.vec3) (uv2 : Shader.vec2),
         let sample := sampler (Shader.posUV (uniforms_of m) off uv2) in
         let decoded :=
           if bool_decide (extension name ∈ hdrExtensions) then sample
           else Shader.vadd (read_posMin (controls s))
                  (Shader.vmul (Shader.vsub (read_posMax (controls s))
                                  (read_posMin (controls s))) sample) in
         Shader.animPos (uniforms_of m) off sampler position uv2
         = if useOffsetCheckbox (controls s) then Shader.vadd position decoded else decoded.
Proof.
  intros Htex Hfind Huv Hpk.
  destruct (applyVat_material s tex idx mesh Htex Hfind Huv) as (m & Em & Hu & _).
  exists m. split; [exact Em|].
  intros off sampler position uv2. cbv zeta. unfold Shader.animPos, Shader.texPos.
  rewrite Hu. cbn [panel_uniforms Shader.u_isPacked Shader.u_useOffset Shader.u_posMin
                   Shader.u_posMax].
  rewrite !js_gt_bool_float, Hpk. unfold isPackedFile.
  destruct (bool_decide (extension name ∈ hdrExtensions)); reflexivity.
Qed.

Lemma texture_format_decides_decoding_witness :
  exists m,
    applied_material (applyVat (demo_state true false false "48" "1")) = Some m
    /\ Shader.animPos (uniforms_of m) None (fun _ => (Fin 1, Fin 0, Fin (1 # 2)))
         (Fin 5, Fin 5, Fin 5) (Fin 0, Fin 0)
       = (Fin 6, Fin 4, Fin 5).
Proof.
  destruct (texture_format_decides_decoding (demo_state true false false "48" "1")
              demo_texture 0 (demo_mesh true) (str "cloth_pos.png")) as (m & E & H).
  - reflexivity.
  - vm_compute. reflexivity.
  - reflexivity.
  - vm_compute. reflexivity.
  - exists m. split; [exact E|].
    rewrite (H None (fun _ => (Fin 1, Fin 0, Fin (1 # 2))) (Fin 5, Fin 5, Fin 5)
               (Fin 0, Fin 0)).
    vm_compute. reflexivity.
Defined.

(** ** Edits of the panel in instanced mode *)

(** X26.  In instanced mode an edit of the instance count rebuilds the
    instanced material and the layout from the panel as it is now: a frame
    count typed since the activation reaches the instanced material and the
    time offsets, while the plain material keeps the frame count it was
    made with.  The new material starts at the player's clock. *)
Theorem instance_edit_rebuilds_from_panel (s : State) (cur vat : nat) (tex : Texture)
    (mesh : Mesh) (m : ShaderMaterial) (value count : jsstring) :
  currentVatMesh s = Some cur -> vatMaterial s = Some vat -> positionTexture s = Some tex ->
  meshes s !! cur = Some mesh -> materials s !! vat = Some m ->
  instancedModeCheckbox (controls s) = true ->
  let s' := run [EditText FNumFrames value; EditText FInstanceCount count] s in
  exists mi m' mesh' L,
    instanced_material s' = Some mi
    /\ applied_material s' = Some m'
    /\ meshes s' !! cur = Some mesh'
    /\ instanceLayout (Number count) (Number (instanceSpacingInput (controls s)))
         (js_or (Number value) (Fin 24)) (read_fps (controls s)) = Some L
    /\ mat_numFrames mi = js_or (Number value) (Fin 24)
    /\ mat_vatTime mi = vatTime s
    /\ mat_numFrames m' = mat_numFrames m
    /\ thinMatrixBuffer mesh' = matricesData L
    /\ thinTimeOffsetBuffer mesh' = timeOffsets L
    /\ animDuration L = js_div (js_or (Number value) (Fin 24)) (read_fps (controls s)).
Proof.
  intros Hcur Hvat Htex Hmesh Hm Hbox s'.
  set (s1 := set_controls (set_text FInstanceCount count
                             (set_text FNumFrames value (controls s))) s).
  assert (Es' : s' = applyInstancing true s1).
  { subst s'. cbn [run fold_left handle]. unfold instancingTextChange. cbv zeta.
    cbn [currentVatMesh set_controls controls set_text instancedModeCheckbox].
    rewrite Hcur, Hbox. reflexivity. }
  destruct (applyInstancing_true_state s1 cur vat tex Hcur Hvat Htex)
    as (L & EL & M1 & I1 & Ms1 & _ & _ & V1 & _).
  destruct (on_material_keeps dispose (fun x => mat_numFrames x = mat_numFrames m)
              (vatMaterialInstanced s) (materials s) vat m) as (m' & Hl' & Hn');
    [intros x Hx; exact Hx | exact Hm | reflexivity |].
  exists (new_material true s1 tex (vatTime s) None), m', (with_instances (length (materials s)) L mesh), L.
  rewrite Es'. unfold instanced_material, applied_material. rewrite I1, V1, M1, Ms1.
  split.
  { apply list_lookup_middle. rewrite on_material_length. reflexivity. }
  split.
  { change (vatMaterial s1) with (vatMaterial s). rewrite Hvat.
    rewrite lookup_app_l by (rewrite on_material_length; eapply lookup_lt_Some; eauto).
    exact Hl'. }
  split.
  { rewrite list_lookup_alter_eq. change (meshes s1) with (meshes s). rewrite Hmesh.
    reflexivity. }
  split; [exact EL|].
  split; [reflexivity|]. split; [reflexivity|]. split; [exact Hn'|].
  split; [reflexivity|]. split; [reflexivity|].
  destruct (instanceLayout_spec (Number count) (Number (instanceSpacingInput (controls s)))
              (js_or (Number value) (Fin 24)) (read_fps (controls s)))
    as (L' & c & EL' & HL').
  unfold panel_layout in EL. change (instanceLayout _ _ _ _ = Some L) with
    (instanceLayout (Number count) (Number (instanceSpacingInput (controls s)))
       (js_or (Number value) (Fin 24)) (read_fps (controls s)) = Some L) in EL.
  rewrite EL in EL'. injection EL' as <-. tauto.
Qed.

Lemma instance_edit_rebuilds_from_panel_witness :
  exists mi m',
    instanced_material
      (run [EditText FNumFrames (str "12"); EditText FInstanceCount (str "9")]
         (applyVat (demo_state true true false "48" "1"))) = Some mi
    /\ applied_material
         (run [EditText FNumFrames (str "12"); EditText FInstanceCount (str "9")]
            (applyVat (demo_state true true false "48" "1"))) = Some m'
    /\ mat_numFrames mi = Fin 12 /\ mat_numFrames m' = Fin 48.
Proof.
  destruct (instance_edit_rebuilds_from_panel
              (applyVat (demo_state true true false "48" "1")) 0 0 demo_texture
              ltac:(let t := eval vm_compute in
                      (default (demo_mesh true)
                         (meshes (applyVat (demo_state true true false "48" "1")) !! 0%nat))
                    in exact t)
              ltac:(let t := eval vm_compute in
                      (default (new_material false (demo_state true true false "48" "1")
                                  demo_texture (Fin 0) None)
                         (materials (applyVat (demo_state true true false "48" "1"))
                            !! 0%nat))
                    in exact t)
              (str "12") (str "9"))
    as (mi & m' & mesh' & L & H1 & H2 & _ & _ & H5 & _ & H7 & _).
  - vm_compute. reflexivity.
  - vm_compute. reflexivity.
  - vm_compute. reflexivity.
  - vm_compute. reflexivity.
  - vm_compute. reflexivity.
  - vm_compute. reflexivity.
  - exists mi, m'. split; [exact H1|]. split; [exact H2|].
    split; [rewrite H5 | rewrite H7]; vm_compute; reflexivity.
Defined.
